(** * otto-scale: a Docker autoscaler (ottoscale.py)

    A shallow embedding of the scaling core of [ottoscale.py]: the inventory
    reader ([get_managed_containers], [get_running_count]), the lifecycle
    operations ([create_container], [remove_container]) and the three scaling
    handlers ([scale_up], [scale_down], [scale_set]).

    The Docker daemon is an external collaborator.  It is modelled as an
    abstract sequential state machine: a type [W] of runtime states and a
    [DockerClient] record with the four calls the program issues.  Handlers
    are state-passing functions that also return the chronological list of
    runtime calls they issued.  Logging has no influence on control flow and
    is left out; the read-only [/health] and [/status] routes and the process
    bootstrap are not modelled. *)

From Stdlib Require Import ZArith List String Ascii Bool DecimalString Lia.
From Stdlib Require Import DecimalPos DecimalZ.
From Stdlib Require Import Floats.SpecFloat.
Import ListNotations.

Local Open Scope string_scope.
Local Open Scope list_scope.
Local Open Scope Z_scope.

(** ** Python values *)

(** Values produced by [request.get_json()]. [JNull] is Python's [None];
    a [JDict] is a [dict], looked up by its first matching key. *)
#[warnings="-register-all"]
Inductive json : Type :=
| JNull
| JBool (b : bool)
| JInt (z : Z)
| JFloat (f : spec_float)
| JStr (s : string)
| JList (l : list json)
| JDict (d : list (string * json)).

(** Exceptions, all subclasses of Python's [Exception].  [Exception msg] is
    what the program itself raises; [DockerException] comes out of a Docker
    SDK call; [HTTPException] out of [request.get_json()]; the last four out
    of Python builtins. *)
Inductive exn : Type :=
| Exception (msg : string)
| DockerException (detail : string)
| HTTPException (code : Z)
| AttributeError
| TypeError
| ValueError
| OverflowError.

Definition RuntimeUnavailable : exn := Exception "Docker client not available".
Definition NoRunningContainers : exn := Exception "No running containers to remove".

(** [str(n)] and the [{n}] of an f-string, for an [int]. *)
Definition str_of_int (z : Z) : string := NilZero.string_of_int (Z.to_int z).

(** [s.startswith(p)] *)
Definition startswith (s p : string) : bool := String.prefix p s.

(** [int(x)] for a [float]: truncation toward zero; [nan] and the infinities
    raise. *)
Definition int_of_float (f : spec_float) : exn + Z :=
  match f with
  | S754_zero _ => inr 0
  | S754_infinity _ => inl OverflowError
  | S754_nan => inl ValueError
  | S754_finite s m e =>
      let n := if 0 <=? e then Z.pos m * 2 ^ e else Z.pos m / 2 ^ (- e) in
      inr (if s then - n else n)
  end.

(** [d.get(key)] on a value: only a [dict] has the method. *)
Fixpoint assoc_get (key : string) (d : list (string * json)) : json :=
  match d with
  | [] => JNull
  | (k, v) :: d' => if String.eqb k key then v else assoc_get key d'
  end.

Definition py_get (data : json) (key : string) : exn + json :=
  match data with
  | JDict d => inr (assoc_get key d)
  | _ => inl AttributeError
  end.

(** ** Docker objects *)

Record Container : Type := {
  name : string;
  status : string;
  image : string;
  labels : list (string * string)
}.

(** The four capabilities of the SDK the program uses, over runtime states
    [W].  Listing observes the state; the three others may change it, also
    when they raise. *)
Record DockerClient (W : Type) : Type := {
  containers_list : W -> exn + list Container;
  containers_run :
    string -> string -> bool -> bool -> list (string * string) ->
    W -> (exn + Container) * W;
  container_stop : Container -> Z -> W -> (exn + unit) * W;
  container_remove : Container -> W -> (exn + unit) * W
}.
Arguments containers_list {W}.
Arguments containers_run {W}.
Arguments container_stop {W}.
Arguments container_remove {W}.

(** A call issued to the runtime. *)
Inductive event : Type :=
| EvList
| EvRun (img nm : string) (detach remove : bool) (lbls : list (string * string))
| EvStop (c : Container) (timeout : Z)
| EvRemove (c : Container).

Definition is_mutation (ev : event) : bool :=
  match ev with EvList => false | _ => true end.

Definition is_run (ev : event) : bool :=
  match ev with EvRun _ _ _ _ _ => true | _ => false end.

Definition is_stop (ev : event) : bool :=
  match ev with EvStop _ _ => true | _ => false end.

Definition is_remove (ev : event) : bool :=
  match ev with EvRemove _ => true | _ => false end.

(** ** The process environment: configuration, client handle, clock *)

Class Env (W : Type) : Type := {
  CONTAINER_IMAGE : string;
  CONTAINER_PREFIX : string;
  MIN_CONTAINERS : Z;
  MAX_CONTAINERS : Z;
  (** [None] when [docker.from_env()] failed at start-up. *)
  docker_client : option (DockerClient W);
  (** [int(datetime.now().timestamp())] *)
  now_timestamp : W -> Z;
  (** [int(s)] for a [str]: the host language's parser; [None] when it
      raises [ValueError]. *)
  int_of_str : string -> option Z
}.

(** ** Computations: state passing, exceptions, and the calls issued *)

Definition M (W A : Type) : Type := W -> (exn + A) * W * list event.

Definition ret {W A} (a : A) : M W A := fun w => (inr a, w, []).

Definition raise {W A} (e : exn) : M W A := fun w => (inl e, w, []).

Definition bind {W A B} (m : M W A) (k : A -> M W B) : M W B :=
  fun w =>
    match m w with
    | (inl e, w1, t1) => (inl e, w1, t1)
    | (inr a, w1, t1) =>
        match k a w1 with
        | (r, w2, t2) => (r, w2, t1 ++ t2)
        end
    end.

Notation "x <- m ;; k" := (bind m (fun x => k))
  (at level 61, m at next level, right associativity).
Notation "m ;;; k" := (bind m (fun _ => k))
  (at level 61, right associativity).

(** [try: m except Exception as e: h e] *)
Definition try_except {W A} (m : M W A) (h : exn -> M W A) : M W A :=
  fun w =>
    match m w with
    | (inl e, w1, t1) =>
        match h e w1 with
        | (r, w2, t2) => (r, w2, t1 ++ t2)
        end
    | (inr a, w1, t1) => (inr a, w1, t1)
    end.

(** [for _ in range(n): body] *)
Fixpoint for_range {W A} (n : nat) (body : M W A) : M W unit :=
  match n with
  | O => ret tt
  | S n' => body ;;; for_range n' body
  end.

Definition lift_result {W A} (r : exn + A) : M W A :=
  match r with inl e => raise e | inr a => ret a end.

(** Every call [m] issues, from any state and whatever its outcome,
    satisfies [P]. *)
Definition emits {W A} (P : event -> Prop) (m : M W A) : Prop :=
  forall w r w' t, m w = (r, w', t) -> Forall P t.

(** The four runtime calls, each recorded. *)
Definition call_list {W} (cl : DockerClient W) : M W (list Container) :=
  fun w => (containers_list cl w, w, [EvList]).

Definition call_run {W} (cl : DockerClient W) (img nm : string)
    (detach remove : bool) (lbls : list (string * string)) : M W Container :=
  fun w =>
    let (r, w') := containers_run cl img nm detach remove lbls w in
    (r, w', [EvRun img nm detach remove lbls]).

Definition call_stop {W} (cl : DockerClient W) (c : Container) (timeout : Z)
    : M W unit :=
  fun w => let (r, w') := container_stop cl c timeout w in (r, w', [EvStop c timeout]).

Definition call_remove {W} (cl : DockerClient W) (c : Container) : M W unit :=
  fun w => let (r, w') := container_remove cl c w in (r, w', [EvRemove c]).

Definition get_now {W} `{Env W} : M W Z := fun w => (inr (now_timestamp w), w, []).

(** ** HTTP responses *)

Inductive value : Type :=
| VBool (b : bool)
| VInt (z : Z)
| VStr (s : string)
| VStrOf (e : exn).   (* str(e) *)

Record response : Type := {
  body : list (string * value);
  status_code : Z
}.

(** [jsonify(d)] and [jsonify(d), code] *)
Definition jsonify (d : list (string * value)) : response :=
  {| body := d; status_code := 200 |}.

Definition jsonify_code (d : list (string * value)) (code : Z) : response :=
  {| body := d; status_code := code |}.

Fixpoint field (key : string) (d : list (string * value)) : option value :=
  match d with
  | [] => None
  | (k, v) :: d' => if String.eqb k key then Some v else field key d'
  end.

(** The request of [/scale/set], as [request.get_json()] sees it. *)
Inductive request : Type :=
| BadBody (e : exn)          (* get_json() raises *)
| JsonBody (data : json).    (* get_json() returns data *)

Definition get_json {W} (req : request) : M W json :=
  match req with
  | BadBody e => raise e
  | JsonBody data => ret data
  end.

(** ** ottoscale.py *)

Section OttoScale.
Context {W : Type} `{E : Env W}.

Definition is_managed (c : Container) : bool :=
  startswith (name c) CONTAINER_PREFIX.

Definition is_running (c : Container) : bool :=
  String.eqb (status c) "running".

Definition get_managed_containers : M W (list Container) :=
  match docker_client with
  | None => ret []
  | Some cl =>
      try_except
        (all_containers <- call_list cl ;;
         ret (filter is_managed all_containers))
        (fun _ => ret [])
  end.

Definition get_running_count : M W Z :=
  containers <- get_managed_containers ;;
  ret (Z.of_nat (List.length (filter is_running containers))).

Definition container_name (count ts : Z) : string :=
  (CONTAINER_PREFIX ++ "_" ++ str_of_int (count + 1) ++ "_" ++ str_of_int ts)%string.

Definition create_container : M W Container :=
  match docker_client with
  | None => raise RuntimeUnavailable
  | Some cl =>
      managed <- get_managed_containers ;;
      let count := Z.of_nat (List.length managed) in
      ts <- get_now ;;
      let container_name := container_name count ts in
      try_except
        (call_run cl CONTAINER_IMAGE container_name true false
           [("managed_by", "auto_scaler")])
        (fun e => raise e)
  end.

Definition remove_container : M W string :=
  match docker_client with
  | None => raise RuntimeUnavailable
  | Some cl =>
      managed <- get_managed_containers ;;
      let containers := filter is_running managed in
      match containers with
      | [] => raise NoRunningContainers
      | c0 :: _ =>
          let container := last containers c0 in
          try_except
            (call_stop cl container 10 ;;;
             call_remove cl container ;;;
             ret (name container))
            (fun e => raise e)
      end
  end.

(** What every handler does with an exception that reaches it. *)
Definition internal_error (e : exn) : M W response :=
  ret (jsonify_code [("success", VBool false); ("message", VStrOf e)] 500).

Definition scale_up_try : M W response :=
  current <- get_running_count ;;
  if MAX_CONTAINERS <=? current then
    ret (jsonify_code
           [("success", VBool false);
            ("message", VStr ("Maximum container limit reached ("
                              ++ str_of_int MAX_CONTAINERS ++ ")")%string);
            ("current_count", VInt current)] 400)
  else
    container <- create_container ;;
    new_count <- get_running_count ;;
    ret (jsonify
           [("success", VBool true);
            ("message", VStr "Scaled up successfully");
            ("container_name", VStr (name container));
            ("previous_count", VInt current);
            ("current_count", VInt new_count)]).

Definition scale_up : M W response := try_except scale_up_try internal_error.

Definition scale_down_try : M W response :=
  current <- get_running_count ;;
  if current <=? MIN_CONTAINERS then
    ret (jsonify_code
           [("success", VBool false);
            ("message", VStr ("Minimum container limit reached ("
                              ++ str_of_int MIN_CONTAINERS ++ ")")%string);
            ("current_count", VInt current)] 400)
  else
    container_name <- remove_container ;;
    new_count <- get_running_count ;;
    ret (jsonify
           [("success", VBool true);
            ("message", VStr "Scaled down successfully");
            ("removed_container", VStr container_name);
            ("previous_count", VInt current);
            ("current_count", VInt new_count)]).

Definition scale_down : M W response :=
  try_except scale_down_try internal_error.

(** [int(target_count)], for a value that is not [None]. *)
Definition py_int (v : json) : exn + Z :=
  match v with
  | JNull => inl TypeError
  | JBool b => inr (if b then 1 else 0)
  | JInt z => inr z
  | JFloat f => int_of_float f
  | JStr s => match int_of_str s with Some z => inr z | None => inl ValueError end
  | JList _ => inl TypeError
  | JDict _ => inl TypeError
  end.

Definition is_none (v : json) : bool :=
  match v with JNull => true | _ => false end.

Definition scale_set_try (req : request) : M W response :=
  data <- get_json req ;;
  target_count <- lift_result (py_get data "count") ;;
  if is_none target_count then
    ret (jsonify_code
           [("success", VBool false);
            ("message", VStr "Missing 'count' parameter")] 400)
  else
    target_count <- lift_result (py_int target_count) ;;
    if (target_count <? MIN_CONTAINERS) || (MAX_CONTAINERS <? target_count) then
      ret (jsonify_code
             [("success", VBool false);
              ("message", VStr ("Count must be between "
                                ++ str_of_int MIN_CONTAINERS ++ " and "
                                ++ str_of_int MAX_CONTAINERS)%string)] 400)
    else
      current <- get_running_count ;;
      let diff := target_count - current in
      (if 0 <? diff then
         for_range (Z.to_nat diff) create_container
       else if diff <? 0 then
         for_range (Z.to_nat (Z.abs diff)) remove_container
       else ret tt) ;;;
      new_count <- get_running_count ;;
      ret (jsonify
             [("success", VBool true);
              ("message", VStr ("Scaled to " ++ str_of_int target_count
                                ++ " containers")%string);
              ("previous_count", VInt current);
              ("current_count", VInt new_count)]).

Definition scale_set (req : request) : M W response :=
  try_except (scale_set_try req) internal_error.

(** The top-up of the [__main__] block, before the server starts: its try
    block, and the block with its handler, which only logs a warning. *)
Definition startup_try : M W unit :=
  current <- get_running_count ;;
  if current <? MIN_CONTAINERS then
    for_range (Z.to_nat (MIN_CONTAINERS - current)) create_container
  else ret tt.

Definition startup : M W unit :=
  try_except startup_try (fun _ => ret tt).

End OttoScale.

(** ** Results of the inventory reader, as functions of the runtime state *)

Section Observations.
Context {W : Type} `{E : Env W}.

(** The value [get_managed_containers()] returns in state [w]. *)
Definition managed_in (w : W) : list Container :=
  match docker_client with
  | None => []
  | Some cl =>
      match containers_list cl w with
      | inl _ => []
      | inr all_containers => filter is_managed all_containers
      end
  end.

(** The calls one inventory read issues. *)
Definition read_trace : list event :=
  match docker_client with None => [] | Some _ => [EvList] end.

(** The value [get_running_count()] returns in state [w]. *)
Definition running_in (w : W) : Z :=
  Z.of_nat (List.length (filter is_running (managed_in w))).

(** Running managed containers of a listing. *)
Definition run_count (l : list Container) : Z :=
  Z.of_nat (List.length (filter is_running (filter is_managed l))).

(** The container [remove_container] picks in state [w]: the last element
    of the running-filtered listing. *)
Definition victim (w : W) : option Container :=
  match filter is_running (managed_in w) with
  | [] => None
  | c0 :: rest => Some (last (c0 :: rest) c0)
  end.

(** A call that concerns no container outside the managed set. *)
Definition within_prefix (ev : event) : Prop :=
  match ev with
  | EvList => True
  | EvRun _ nm _ _ _ => startswith nm CONTAINER_PREFIX = true
  | EvStop c _ => startswith (name c) CONTAINER_PREFIX = true
  | EvRemove c => startswith (name c) CONTAINER_PREFIX = true
  end.

(** The run calls that [n] successive creations issue, starting in state
    [w], all return a container. *)
Fixpoint runs_succeed (cl : DockerClient W) (n : nat) (w : W) : Prop :=
  match n with
  | O => True
  | S n' =>
      exists c w',
        containers_run cl CONTAINER_IMAGE
          (container_name (Z.of_nat (List.length (managed_in w)))
             (now_timestamp w))
          true false [("managed_by", "auto_scaler")]%string w = (inr c, w') /\
        runs_succeed cl n' w'
  end.

(** The stop and remove calls that [n] successive removals issue, starting
    in state [w], all return.  A removal that finds nothing running issues
    neither. *)
Fixpoint removals_succeed (cl : DockerClient W) (n : nat) (w : W) : Prop :=
  match n with
  | O => True
  | S n' =>
      forall c, victim w = Some c ->
        exists w1 w2,
          container_stop cl c 10 w = (inr tt, w1) /\
          container_remove cl c w1 = (inr tt, w2) /\
          removals_succeed cl n' w2
  end.

(** The reconciliation loop of [scale_set], for a signed difference. *)
Definition reconcile (diff : Z) : M W unit :=
  if 0 <? diff then for_range (Z.to_nat diff) create_container
  else if diff <? 0 then for_range (Z.to_nat (Z.abs diff)) remove_container
  else ret tt.

(** The success body of [scale_set]. *)
Definition set_body (target current new_count : Z) : list (string * value) :=
  [("success", VBool true);
   ("message", VStr ("Scaled to " ++ str_of_int target ++ " containers"));
   ("previous_count", VInt current);
   ("current_count", VInt new_count)]%string.

(** The body of a 500 response. *)
Definition error_body (e : exn) : list (string * value) :=
  [("success", VBool false); ("message", VStrOf e)]%string.

(** The bodies of the limit responses the step handlers build. *)
Definition limit_body (msg : string) (current : Z) : list (string * value) :=
  [("success", VBool false); ("message", VStr msg);
   ("current_count", VInt current)]%string.

Definition max_message : string :=
  ("Maximum container limit reached (" ++ str_of_int MAX_CONTAINERS ++ ")")%string.

Definition min_message : string :=
  ("Minimum container limit reached (" ++ str_of_int MIN_CONTAINERS ++ ")")%string.

End Observations.

(** ** A runtime that behaves as Docker does when nobody else talks to it *)

(** [run] adds one running container of the requested name; [stop] turns the
    given listing entry into a non-running one; [remove] deletes one
    non-running entry of that name.  Nothing else in the listing changes. *)
Record SequentialDocker {W : Type} (cl : DockerClient W) : Prop := {
  run_adds :
    forall img nm d r lbls w c w' l,
      containers_run cl img nm d r lbls w = (inr c, w') ->
      containers_list cl w = inr l ->
      exists l1 l2 c',
        l = l1 ++ l2 /\
        containers_list cl w' = inr (l1 ++ c' :: l2) /\
        name c' = nm /\ status c' = "running"%string;
  stop_marks :
    forall c t w w' l,
      container_stop cl c t w = (inr tt, w') ->
      containers_list cl w = inr l ->
      In c l ->
      exists l1 l2 c',
        l = l1 ++ c :: l2 /\
        containers_list cl w' = inr (l1 ++ c' :: l2) /\
        name c' = name c /\ status c' <> "running"%string;
  remove_deletes :
    forall c w w' l,
      container_remove cl c w = (inr tt, w') ->
      containers_list cl w = inr l ->
      exists l1 x l2,
        l = l1 ++ x :: l2 /\
        containers_list cl w' = inr (l1 ++ l2) /\
        name x = name c /\ status x <> "running"%string
}.

(** ** A small simulated Docker daemon *)

Module Sim.

Record World : Type := {
  inventory : list Container;   (* newest first, as [docker ps -a] lists *)
  clock : Z
}.

Definition Container_eq_dec (a b : Container) : {a = b} + {a <> b}.
Proof.
  decide equality;
    try apply string_dec;
    apply (list_eq_dec (fun p q : string * string =>
             ltac:(decide equality; apply string_dec) : {p = q} + {p <> q})).
Defined.

Definition has_name (nm : string) (c : Container) : bool :=
  String.eqb (name c) nm.

Definition stopped (c : Container) : Container :=
  {| name := name c; status := "exited"; image := image c; labels := labels c |}.

Fixpoint mark_stopped (c : Container) (l : list Container)
    : option (list Container) :=
  match l with
  | [] => None
  | x :: l' =>
      if Container_eq_dec x c then Some (stopped x :: l')
      else option_map (cons x) (mark_stopped c l')
  end.

Fixpoint delete_named (nm : string) (l : list Container)
    : exn + list Container :=
  match l with
  | [] => inl (DockerException "No such container")
  | x :: l' =>
      if has_name nm x then
        if is_running x
        then inl (DockerException "cannot remove a running container")
        else inr l'
      else
        match delete_named nm l' with
        | inl e => inl e
        | inr l'' => inr (x :: l'')
        end
  end.

Definition sim_list (w : World) : exn + list Container := inr (inventory w).

Definition sim_run (img nm : string) (detach remove : bool)
    (lbls : list (string * string)) (w : World) : (exn + Container) * World :=
  if existsb (has_name nm) (inventory w) then
    (inl (DockerException "Conflict: the container name is already in use"), w)
  else
    let c := {| name := nm; status := "running"; image := img; labels := lbls |} in
    (inr c, {| inventory := c :: inventory w; clock := clock w |}).

Definition sim_stop (c : Container) (timeout : Z) (w : World)
    : (exn + unit) * World :=
  match mark_stopped c (inventory w) with
  | None => (inl (DockerException "No such container"), w)
  | Some l => (inr tt, {| inventory := l; clock := clock w |})
  end.

Definition sim_remove (c : Container) (w : World) : (exn + unit) * World :=
  match delete_named (name c) (inventory w) with
  | inl e => (inl e, w)
  | inr l => (inr tt, {| inventory := l; clock := clock w |})
  end.

Definition client : DockerClient World := {|
  containers_list := sim_list;
  containers_run := sim_run;
  container_stop := sim_stop;
  container_remove := sim_remove
|}.

(** A daemon whose listing call always raises, the others working. *)
Definition deaf_client : DockerClient World := {|
  containers_list := fun _ => inl (DockerException "listing failed");
  containers_run := sim_run;
  container_stop := sim_stop;
  container_remove := sim_remove
|}.

(** A daemon whose stop call stops every running container at once. *)
Definition sim_stop_all (c : Container) (timeout : Z) (w : World)
    : (exn + unit) * World :=
  (inr tt,
   {| inventory := map (fun x => if is_running x then stopped x else x)
                     (inventory w);
      clock := clock w |}).

Definition eager_client : DockerClient World := {|
  containers_list := sim_list;
  containers_run := sim_run;
  container_stop := sim_stop_all;
  container_remove := sim_remove
|}.

(** Plain decimal literals with an optional sign.  This is the [int_of_str]
    of the deployments below, not Python's parser, which also accepts
    surrounding whitespace, underscores between digits and the digits of
    other scripts. *)
Definition digit_of (a : ascii) : option Z :=
  let n := Z.of_nat (nat_of_ascii a) in
  if (48 <=? n) && (n <=? 57) then Some (n - 48) else None.

Fixpoint digits (acc : Z) (s : string) : option Z :=
  match s with
  | EmptyString => Some acc
  | String a s' =>
      match digit_of a with
      | Some d => digits (10 * acc + d) s'
      | None => None
      end
  end.

Definition parse_int (s : string) : option Z :=
  match s with
  | EmptyString => None
  | String "-" (String a s') => option_map Z.opp (digits 0 (String a s'))
  | String "+" (String a s') => digits 0 (String a s')
  | String "-" EmptyString => None
  | String "+" EmptyString => None
  | _ => digits 0 s
  end.

(** The defaults of the program: image [nginx:alpine], prefix
    [scaled_app], between [lo] and [hi] containers. *)
Definition env (lo hi : Z) (cl : option (DockerClient World)) : Env World := {|
  CONTAINER_IMAGE := "nginx:alpine";
  CONTAINER_PREFIX := "scaled_app";
  MIN_CONTAINERS := lo;
  MAX_CONTAINERS := hi;
  docker_client := cl;
  now_timestamp := clock;
  int_of_str := parse_int
|}.

Definition app (nm st : string) : Container :=
  {| name := nm; status := st; image := "nginx:alpine";
     labels := [("managed_by", "auto_scaler")] |}.

Definition world (l : list Container) : World :=
  {| inventory := l; clock := 1700000000 |}.

(** Deployments: connected and disconnected, between 1 and 3 containers. *)
Definition online : Env World := env 1 3 (Some client).
Definition offline : Env World := env 1 3 None.
Definition unheard : Env World := env 1 3 (Some deaf_client).
Definition eager : Env World := env 1 3 (Some eager_client).

(** A deployment configured with a negative minimum. *)
Definition below_zero : Env World := env (-3) 3 (Some client).

(** A foreign container that carries the ownership label but not the
    prefix. *)
Definition stranger : Container := app "database" "running".

(** No container at all. *)
Definition w_empty : World := world [].

(** One running managed container and the stranger. *)
Definition w_one : World :=
  world [app "scaled_app_1_1699999000" "running"; stranger].

(** Three running managed containers. *)
Definition w_full : World :=
  world [app "scaled_app_3_1699999002" "running";
         app "scaled_app_2_1699999001" "running";
         app "scaled_app_1_1699999000" "running"].

(** One running managed container and an exited one whose name is the one
    the second creation of this second will ask for. *)
Definition w_clash : World :=
  world [app "scaled_app_1_1699999000" "running";
         app "scaled_app_4_1700000000" "exited"].

(** Request bodies of [/scale/set]. *)
Definition count_body (v : json) : request := JsonBody (JDict [("count", v)]).

(** The float 2.5. *)
Definition two_and_a_half : spec_float := S754_finite false 5 (-1).

End Sim.

(** ** Notions used in the statements *)

(** A response as the handlers build them: 200 with [success] true, or 400
    or 500 with [success] false. *)
Definition well_formed (resp : response) : Prop :=
  (status_code resp = 200 /\ field "success" (body resp) = Some (VBool true)) \/
  (status_code resp = 400 /\ field "success" (body resp) = Some (VBool false)) \/
  (status_code resp = 500 /\ field "success" (body resp) = Some (VBool false)).

(** Every value [m] returns satisfies [Q]. *)
Definition yields {W A} (Q : A -> Prop) (m : M W A) : Prop :=
  forall w a w' t, m w = (inr a, w', t) -> Q a.

(** The listing call works in state [w]. *)
Definition listed {W : Type} (cl : DockerClient W) (w : W) : Prop :=
  exists l, containers_list cl w = inr l.

(** The character does not occur in the string. *)
Fixpoint lacks (a : ascii) (s : string) : Prop :=
  match s with
  | EmptyString => True
  | String b s' => b <> a /\ lacks a s'
  end.

(** * Properties *)

Definition count_ev (f : event -> bool) (t : list event) : Z :=
  Z.of_nat (List.length (filter f t)).

Lemma count_ev_app f t1 t2 : count_ev f (t1 ++ t2) = count_ev f t1 + count_ev f t2.
Proof.
  unfold count_ev. rewrite filter_app, length_app. lia.
Qed.

Lemma count_ev_nonneg f t : 0 <= count_ev f t.
Proof. unfold count_ev. lia. Qed.

Lemma prefix_append (p s : string) : String.prefix p (p ++ s)%string = true.
Proof.
  induction p as [| a p IH]; simpl.
  - destruct s; reflexivity.
  - destruct (ascii_dec a a) as [_ | ne]; [exact IH | contradiction].
Qed.

Lemma last_In {A} (l : list A) (d : A) : l <> [] -> In (last l d) l.
Proof.
  induction l as [| a l IH]; intros ne; [contradiction |].
  destruct l as [| b l']; [left; reflexivity |].
  right. apply IH. discriminate.
Qed.

Section Basics.
Context {W : Type} `{E : Env W}.

Lemma get_managed_containers_eq (w : W) :
  get_managed_containers w = (inr (managed_in w), w, read_trace).
Proof.
  unfold get_managed_containers, managed_in, read_trace.
  destruct docker_client as [cl |]; [| reflexivity].
  unfold try_except, bind, call_list, ret.
  destruct (containers_list cl w); reflexivity.
Qed.

Lemma get_running_count_eq (w : W) :
  get_running_count w = (inr (running_in w), w, read_trace).
Proof.
  unfold get_running_count, bind.
  rewrite get_managed_containers_eq. unfold ret, running_in.
  rewrite app_nil_r. reflexivity.
Qed.

Lemma read_trace_quiet : forall ev, In ev read_trace -> ev = EvList.
Proof.
  unfold read_trace. destruct docker_client; simpl; intros ev H;
    intuition congruence.
Qed.

Lemma count_read_trace f : f EvList = false -> count_ev f read_trace = 0.
Proof.
  intros Hf. unfold read_trace, count_ev.
  destruct docker_client; simpl; [rewrite Hf |]; reflexivity.
Qed.

Lemma managed_in_managed w c : In c (managed_in w) -> is_managed c = true.
Proof.
  unfold managed_in. destruct docker_client as [cl |]; [| contradiction].
  destruct (containers_list cl w) as [e | l]; [contradiction |].
  intros H. apply filter_In in H. tauto.
Qed.

Lemma container_name_managed count ts st img lbls :
  is_managed {| name := container_name count ts; status := st;
                image := img; labels := lbls |} = true.
Proof. unfold is_managed, startswith, container_name. apply prefix_append. Qed.

Lemma victim_spec w c :
  victim w = Some c ->
  In c (managed_in w) /\ is_managed c = true /\ is_running c = true.
Proof.
  unfold victim. destruct (filter is_running (managed_in w)) as [| c0 rest] eqn:Hf;
    [discriminate |].
  intros [= <-].
  assert (Hin : In (last (c0 :: rest) c0) (filter is_running (managed_in w))).
  { rewrite Hf. apply last_In. discriminate. }
  apply filter_In in Hin. destruct Hin as [Hin Hr].
  split; [exact Hin |]. split; [| exact Hr].
  eapply managed_in_managed; eassumption.
Qed.

Lemma create_container_eq cl w :
  docker_client = Some cl ->
  create_container w =
    let nm := container_name (Z.of_nat (List.length (managed_in w)))
                (now_timestamp w) in
    let (r, w') := containers_run cl CONTAINER_IMAGE nm true false
                     [("managed_by", "auto_scaler")]%string w in
    (r, w', [EvList;
             EvRun CONTAINER_IMAGE nm true false
               [("managed_by", "auto_scaler")]%string]).
Proof.
  intros Hcl. unfold create_container. rewrite Hcl.
  unfold bind. rewrite get_managed_containers_eq.
  unfold read_trace. rewrite Hcl. unfold get_now, try_except, call_run, raise.
  cbv zeta.
  destruct (containers_run cl _ _ _ _ _ w) as [[e | c] w']; reflexivity.
Qed.

Lemma create_container_offline w :
  docker_client = None ->
  create_container w = (inl RuntimeUnavailable, w, []).
Proof. intros Hcl. unfold create_container. rewrite Hcl. reflexivity. Qed.

Lemma remove_container_offline w :
  docker_client = None ->
  remove_container w = (inl RuntimeUnavailable, w, []).
Proof. intros Hcl. unfold remove_container. rewrite Hcl. reflexivity. Qed.

Lemma remove_container_eq cl w :
  docker_client = Some cl ->
  remove_container w =
    match victim w with
    | None => (inl NoRunningContainers, w, [EvList])
    | Some c =>
        match container_stop cl c 10 w with
        | (inl e, w1) => (inl e, w1, [EvList; EvStop c 10])
        | (inr _, w1) =>
            match container_remove cl c w1 with
            | (inl e, w2) => (inl e, w2, [EvList; EvStop c 10; EvRemove c])
            | (inr _, w2) =>
                (inr (name c), w2, [EvList; EvStop c 10; EvRemove c])
            end
        end
    end.
Proof.
  intros Hcl. unfold remove_container, victim. rewrite Hcl.
  unfold bind. rewrite get_managed_containers_eq.
  unfold read_trace. rewrite Hcl.
  destruct (filter is_running (managed_in w)) as [| c0 rest]; [reflexivity |].
  unfold try_except, call_stop, call_remove, raise, ret.
  destruct (container_stop cl _ 10 w) as [[e | u] w1]; [reflexivity |].
  destruct (container_remove cl _ w1) as [[e | u'] w2]; reflexivity.
Qed.

End Basics.

Section Handlers.
Context {W : Type} `{E : Env W}.

Lemma scale_up_try_eq w :
  scale_up_try w =
    if MAX_CONTAINERS <=? running_in w then
      (inr (jsonify_code (limit_body max_message (running_in w)) 400),
       w, read_trace)
    else
      match create_container w with
      | (inl e, w1, t1) => (inl e, w1, read_trace ++ t1)
      | (inr c, w1, t1) =>
          (inr (jsonify
                  [("success", VBool true);
                   ("message", VStr "Scaled up successfully");
                   ("container_name", VStr (name c));
                   ("previous_count", VInt (running_in w));
                   ("current_count", VInt (running_in w1))]%string),
           w1, read_trace ++ t1 ++ read_trace)
      end.
Proof.
  unfold scale_up_try, bind. rewrite get_running_count_eq.
  destruct (MAX_CONTAINERS <=? running_in w).
  - unfold ret. rewrite app_nil_r. reflexivity.
  - destruct (create_container w) as [[[e | c] w1] t1]; [reflexivity |].
    rewrite get_running_count_eq. unfold ret. rewrite app_nil_r. reflexivity.
Qed.

Lemma scale_down_try_eq w :
  scale_down_try w =
    if running_in w <=? MIN_CONTAINERS then
      (inr (jsonify_code (limit_body min_message (running_in w)) 400),
       w, read_trace)
    else
      match remove_container w with
      | (inl e, w1, t1) => (inl e, w1, read_trace ++ t1)
      | (inr nm, w1, t1) =>
          (inr (jsonify
                  [("success", VBool true);
                   ("message", VStr "Scaled down successfully");
                   ("removed_container", VStr nm);
                   ("previous_count", VInt (running_in w));
                   ("current_count", VInt (running_in w1))]%string),
           w1, read_trace ++ t1 ++ read_trace)
      end.
Proof.
  unfold scale_down_try, bind. rewrite get_running_count_eq.
  destruct (running_in w <=? MIN_CONTAINERS).
  - unfold ret. rewrite app_nil_r. reflexivity.
  - destruct (remove_container w) as [[[e | c] w1] t1]; [reflexivity |].
    rewrite get_running_count_eq. unfold ret. rewrite app_nil_r. reflexivity.
Qed.

(** A handler answers its own try block, or a 500 built from the
    exception. *)
Lemma handler_eq (m : M W response) w :
  try_except m internal_error w =
    match m w with
    | (inl e, w1, t1) =>
        (inr (jsonify_code [("success", VBool false);
                            ("message", VStrOf e)]%string 500), w1, t1)
    | (inr resp, w1, t1) => (inr resp, w1, t1)
    end.
Proof.
  unfold try_except, internal_error, ret.
  destruct (m w) as [[[e | resp] w1] t1]; [rewrite app_nil_r |]; reflexivity.
Qed.

Lemma running_in_nonneg w : 0 <= running_in w.
Proof. unfold running_in. lia. Qed.

Lemma running_in_offline w : docker_client = None -> running_in w = 0.
Proof. intros H. unfold running_in, managed_in. rewrite H. reflexivity. Qed.

Lemma victim_some w : 0 < running_in w -> exists c, victim w = Some c.
Proof.
  unfold running_in, victim.
  destruct (filter is_running (managed_in w)) as [| c0 rest]; simpl; [lia |].
  intros _. eexists. reflexivity.
Qed.

(** C2. When the bound check rejects a single step ([scale_up] with
    [current >= MAX], [scale_down] with [current <= MIN]) the handler
    issues no mutating call, leaves the runtime state as it was, and
    answers 400 with [success] false and [current_count] the count it
    read. *)
Theorem step_rejected_no_mutation (w : W) :
  (MAX_CONTAINERS <= running_in w ->
     exists resp t,
       scale_up w = (inr resp, w, t) /\
       count_ev is_mutation t = 0 /\
       status_code resp = 400 /\
       field "success" (body resp) = Some (VBool false) /\
       field "current_count" (body resp) = Some (VInt (running_in w)))
  /\
  (running_in w <= MIN_CONTAINERS ->
     exists resp t,
       scale_down w = (inr resp, w, t) /\
       count_ev is_mutation t = 0 /\
       status_code resp = 400 /\
       field "success" (body resp) = Some (VBool false) /\
       field "current_count" (body resp) = Some (VInt (running_in w))).
Proof.
  split; intros Hb.
  - unfold scale_up. rewrite handler_eq, scale_up_try_eq.
    apply Z.leb_le in Hb. rewrite Hb.
    eexists. exists read_trace. split; [reflexivity |].
    split; [apply count_read_trace; reflexivity |].
    repeat split.
  - unfold scale_down. rewrite handler_eq, scale_down_try_eq.
    apply Z.leb_le in Hb. rewrite Hb.
    eexists. exists read_trace. split; [reflexivity |].
    split; [apply count_read_trace; reflexivity |].
    repeat split.
Qed.

(** C9. Without a client handle and with [MIN >= 0], [scale_down] issues
    no runtime call at all, raises nothing, and answers the
    minimum-limit 400 with [current_count] 0. *)
Theorem scale_down_offline (w : W) :
  docker_client = None ->
  0 <= MIN_CONTAINERS ->
  scale_down_try w =
    (inr (jsonify_code (limit_body min_message 0) 400), w, []) /\
  scale_down w =
    (inr (jsonify_code (limit_body min_message 0) 400), w, []) /\
  field "current_count" (limit_body min_message 0) = Some (VInt 0).
Proof.
  intros Hcl Hmin.
  assert (Ht : scale_down_try w =
               (inr (jsonify_code (limit_body min_message 0) 400), w, [])).
  { rewrite scale_down_try_eq, (running_in_offline w Hcl).
    apply Z.leb_le in Hmin. rewrite Hmin.
    unfold read_trace. rewrite Hcl. reflexivity. }
  split; [exact Ht |]. split; [| reflexivity].
  unfold scale_down. rewrite handler_eq, Ht. reflexivity.
Qed.

(** C10. With [MIN >= 0], a [scale_down] that passes the bound check finds
    a running managed container inside [remove_container]; so whenever the
    try block of [scale_down] ends in an exception, a victim had been
    chosen and its stop call issued: the exception is not the one of the
    empty-list branch. *)
Theorem scale_down_never_empty (w : W) :
  0 <= MIN_CONTAINERS ->
  (MIN_CONTAINERS < running_in w ->
     filter is_running (managed_in w) <> []) /\
  (forall e w' t,
     scale_down_try w = (inl e, w', t) ->
     exists cl c,
       docker_client = Some cl /\ victim w = Some c /\
       In (EvStop c 10) t /\
       remove_container w <> (inl NoRunningContainers, w, [EvList])).
Proof.
  intros Hmin. split.
  - intros Hlt Hnil. unfold running_in in Hlt. rewrite Hnil in Hlt.
    simpl in Hlt. lia.
  - intros e w' t Hrun. rewrite scale_down_try_eq in Hrun.
    destruct (running_in w <=? MIN_CONTAINERS) eqn:Hb; [discriminate |].
    apply Z.leb_gt in Hb.
    destruct docker_client as [cl |] eqn:Hcl.
    2:{ rewrite (running_in_offline w Hcl) in Hb. lia. }
    destruct (victim_some w) as [c Hc]; [lia |].
    rewrite (remove_container_eq cl w Hcl), Hc in Hrun |- *.
    exists cl, c. split; [reflexivity |]. split; [reflexivity |].
    unfold read_trace in Hrun. rewrite Hcl in Hrun.
    destruct (container_stop cl c 10 w) as [[e1 | u1] w1].
    + injection Hrun as <- <- <-. split; [simpl; tauto | discriminate].
    + destruct (container_remove cl c w1) as [[e2 | u2] w2].
      * injection Hrun as <- <- <-. split; [simpl; tauto | discriminate].
      * discriminate.
Qed.

End Handlers.

Section Lifecycle.
Context {W : Type} `{E : Env W}.

(** C3, amended.  Without a client handle [remove_container] raises
    "Docker client not available" and calls nothing.  With one: on an
    empty running-filtered listing it raises "No running containers to
    remove" after the one listing call, the state untouched; otherwise it
    takes the last element of that listing, stops it with timeout 10,
    then (if the stop returned) removes it, and (if the removal returned)
    returns its name; an exception of either call is passed on. *)
Theorem remove_container_policy (w : W) :
  (docker_client = None ->
     remove_container w = (inl RuntimeUnavailable, w, []))
  /\
  (forall cl, docker_client = Some cl ->
     (filter is_running (managed_in w) = [] ->
        remove_container w = (inl NoRunningContainers, w, [EvList]))
     /\
     (forall c0 rest,
        filter is_running (managed_in w) = c0 :: rest ->
        let c := last (c0 :: rest) c0 in
        is_managed c = true /\ is_running c = true /\
        forall r1 w1,
          container_stop cl c 10 w = (r1, w1) ->
          match r1 with
          | inl e => remove_container w = (inl e, w1, [EvList; EvStop c 10])
          | inr _ =>
              forall r2 w2,
                container_remove cl c w1 = (r2, w2) ->
                remove_container w =
                  (match r2 with inl e => inl e | inr _ => inr (name c) end,
                   w2, [EvList; EvStop c 10; EvRemove c])
          end)).
Proof.
  split; [apply remove_container_offline |].
  intros cl Hcl. split.
  - intros Hnil. rewrite (remove_container_eq cl w Hcl).
    unfold victim. rewrite Hnil. reflexivity.
  - intros c0 rest Hf c.
    assert (Hv : victim w = Some c) by (unfold victim; rewrite Hf; reflexivity).
    destruct (victim_spec w c Hv) as (_ & Hm & Hr).
    split; [exact Hm |]. split; [exact Hr |].
    intros r1 w1 Hstop. rewrite (remove_container_eq cl w Hcl), Hv, Hstop.
    destruct r1 as [e | u]; [reflexivity |].
    intros r2 w2 Hrem. rewrite Hrem. destruct r2; reflexivity.
Qed.

(** C6. With a client handle, [create_container] issues one run call:
    image [CONTAINER_IMAGE], detached, not auto-removed, labelled
    [managed_by=auto_scaler], named [{prefix}_{N+1}_{timestamp}], where [N]
    is the number of prefix-matching containers of the listing whatever
    their status; its outcome is the outcome of that call. *)
Theorem create_container_naming (cl : DockerClient W) (w : W) :
  docker_client = Some cl ->
  let N := Z.of_nat (List.length (managed_in w)) in
  let nm := (CONTAINER_PREFIX ++ "_" ++ str_of_int (N + 1) ++ "_"
             ++ str_of_int (now_timestamp w))%string in
  let ev := EvRun CONTAINER_IMAGE nm true false
              [("managed_by", "auto_scaler")]%string in
  (forall l, containers_list cl w = inr l ->
     N = Z.of_nat (List.length
           (filter (fun c => startswith (name c) CONTAINER_PREFIX) l))) /\
  startswith nm CONTAINER_PREFIX = true /\
  create_container w =
    (fst (containers_run cl CONTAINER_IMAGE nm true false
            [("managed_by", "auto_scaler")]%string w),
     snd (containers_run cl CONTAINER_IMAGE nm true false
            [("managed_by", "auto_scaler")]%string w),
     [EvList; ev]).
Proof.
  intros Hcl N nm ev. split; [| split].
  - intros l Hl. unfold N, managed_in. rewrite Hcl, Hl. reflexivity.
  - unfold nm, startswith. apply prefix_append.
  - rewrite (create_container_eq cl w Hcl). cbv zeta.
    fold N. unfold container_name. fold nm.
    destruct (containers_run cl CONTAINER_IMAGE nm true false _ w); reflexivity.
Qed.

End Lifecycle.

(** ** Calls issued by composite computations *)

Section Emits.
Context {W : Type} (P : event -> Prop).

Lemma emits_ret {A} (a : A) : emits P (@ret W A a).
Proof. intros w r w' t [= <- <- <-]. constructor. Qed.

Lemma emits_raise {A} (e : exn) : emits P (@raise W A e).
Proof. intros w r w' t [= <- <- <-]. constructor. Qed.

Lemma emits_lift_result {A} (x : exn + A) : emits P (@lift_result W A x).
Proof. destruct x; [apply emits_raise | apply emits_ret]. Qed.

Lemma emits_bind {A B} (m : M W A) (k : A -> M W B) :
  emits P m -> (forall a, emits P (k a)) -> emits P (bind m k).
Proof.
  intros Hm Hk w r w' t. unfold bind.
  destruct (m w) as [[[e | a] w1] t1] eqn:Em.
  - intros [= <- <- <-]. eapply Hm; eassumption.
  - destruct (k a w1) as [[r2 w2] t2] eqn:Ek. intros [= <- <- <-].
    apply Forall_app. split; [eapply Hm | eapply Hk]; eassumption.
Qed.

Lemma emits_try {A} (m : M W A) (h : exn -> M W A) :
  emits P m -> (forall e, emits P (h e)) -> emits P (try_except m h).
Proof.
  intros Hm Hh w r w' t. unfold try_except.
  destruct (m w) as [[[e | a] w1] t1] eqn:Em.
  - destruct (h e w1) as [[r2 w2] t2] eqn:Eh. intros [= <- <- <-].
    apply Forall_app. split; [eapply Hm | eapply Hh]; eassumption.
  - intros [= <- <- <-]. eapply Hm; eassumption.
Qed.

Lemma emits_for_range {A} (n : nat) (body : M W A) :
  emits P body -> emits P (for_range n body).
Proof.
  intros Hb. induction n as [| n IH]; simpl.
  - apply emits_ret.
  - apply emits_bind; [exact Hb | intros _; exact IH].
Qed.

Lemma emits_get_json (req : request) : emits P (@get_json W req).
Proof. destruct req; [apply emits_raise | apply emits_ret]. Qed.

End Emits.

Lemma filter_filter_andb {A} (f g : A -> bool) (l : list A) :
  filter g (filter f l) = filter (fun x => f x && g x) l.
Proof.
  induction l as [| a l IH]; simpl; [reflexivity |].
  destruct (f a); simpl; [destruct (g a) |]; rewrite IH; reflexivity.
Qed.

Section Prefix.
Context {W : Type} `{E : Env W}.

Lemma emits_read {A} (m : M W A) (P : event -> Prop) :
  P EvList -> (forall w, exists r, m w = (r, w, read_trace)) -> emits P m.
Proof.
  intros HP Hm w r w' t Hrun. destruct (Hm w) as [r0 H0].
  rewrite H0 in Hrun. injection Hrun as <- <- <-.
  apply Forall_forall. intros ev Hin.
  rewrite (read_trace_quiet ev Hin). exact HP.
Qed.

Lemma emits_get_running_count (P : event -> Prop) :
  P EvList -> emits P get_running_count.
Proof.
  intros HP. apply emits_read; [exact HP |].
  intros w. eexists. apply get_running_count_eq.
Qed.

Lemma create_container_within : emits within_prefix create_container.
Proof.
  intros w r w' t Hrun. destruct docker_client as [cl |] eqn:Hcl.
  - rewrite (create_container_eq cl w Hcl) in Hrun. cbv zeta in Hrun.
    destruct (containers_run cl _ _ _ _ _ w) as [r0 w0].
    injection Hrun as <- <- <-.
    repeat constructor. simpl. unfold container_name, startswith.
    apply prefix_append.
  - rewrite (create_container_offline w Hcl) in Hrun.
    injection Hrun as <- <- <-. constructor.
Qed.

Lemma remove_container_within : emits within_prefix remove_container.
Proof.
  intros w r w' t Hrun. destruct docker_client as [cl |] eqn:Hcl.
  - rewrite (remove_container_eq cl w Hcl) in Hrun.
    destruct (victim w) as [c |] eqn:Hv.
    + destruct (victim_spec w c Hv) as (_ & Hm & _).
      destruct (container_stop cl c 10 w) as [[e1 | u1] w1].
      * injection Hrun as <- <- <-. repeat constructor. exact Hm.
      * destruct (container_remove cl c w1) as [[e2 | u2] w2];
          injection Hrun as <- <- <-; repeat constructor; exact Hm.
    + injection Hrun as <- <- <-. repeat constructor.
  - rewrite (remove_container_offline w Hcl) in Hrun.
    injection Hrun as <- <- <-. constructor.
Qed.

Lemma scale_up_within : emits within_prefix scale_up.
Proof.
  apply emits_try; [| intros e; apply emits_ret].
  apply emits_bind; [apply emits_get_running_count; exact I |].
  intros current. destruct (MAX_CONTAINERS <=? current); [apply emits_ret |].
  apply emits_bind; [apply create_container_within |]. intros c.
  apply emits_bind; [apply emits_get_running_count; exact I |].
  intros n. apply emits_ret.
Qed.

Lemma scale_down_within : emits within_prefix scale_down.
Proof.
  apply emits_try; [| intros e; apply emits_ret].
  apply emits_bind; [apply emits_get_running_count; exact I |].
  intros current. destruct (current <=? MIN_CONTAINERS); [apply emits_ret |].
  apply emits_bind; [apply remove_container_within |]. intros c.
  apply emits_bind; [apply emits_get_running_count; exact I |].
  intros n. apply emits_ret.
Qed.

Lemma scale_set_within req : emits within_prefix (scale_set req).
Proof.
  apply emits_try; [| intros e; apply emits_ret].
  apply emits_bind; [apply emits_get_json |]. intros data.
  apply emits_bind; [apply emits_lift_result |]. intros v.
  destruct (is_none v); [apply emits_ret |].
  apply emits_bind; [apply emits_lift_result |]. intros target.
  destruct ((target <? MIN_CONTAINERS) || (MAX_CONTAINERS <? target));
    [apply emits_ret |].
  apply emits_bind; [apply emits_get_running_count; exact I |].
  intros current.
  apply emits_bind.
  - destruct (0 <? target - current);
      [apply emits_for_range, create_container_within |].
    destruct (target - current <? 0);
      [apply emits_for_range, remove_container_within | apply emits_ret].
  - intros _. apply emits_bind; [apply emits_get_running_count; exact I |].
    intros n. apply emits_ret.
Qed.

(** C8. The inventory reader returns only containers whose name starts
    with the prefix, and the running count counts only those; labels play
    no part in the selection.  Every call any operation issues concerns a
    prefix-named container: the name of a run call starts with the
    prefix, and the target of every stop and remove call is a container
    whose name does. *)
Theorem only_prefixed_containers :
  (forall w l w' t,
     get_managed_containers w = (inr l, w', t) ->
     Forall (fun c => startswith (name c) CONTAINER_PREFIX = true) l) /\
  (forall cl w l,
     docker_client = Some cl -> containers_list cl w = inr l ->
     get_managed_containers w =
       (inr (filter (fun c => startswith (name c) CONTAINER_PREFIX) l),
        w, [EvList]) /\
     get_running_count w =
       (inr (Z.of_nat (List.length
               (filter (fun c => startswith (name c) CONTAINER_PREFIX
                                 && String.eqb (status c) "running") l))),
        w, [EvList])) /\
  (forall c lbls,
     is_managed {| name := name c; status := status c; image := image c;
                   labels := lbls |} = is_managed c) /\
  emits within_prefix create_container /\
  emits within_prefix remove_container /\
  emits within_prefix scale_up /\
  emits within_prefix scale_down /\
  (forall req, emits within_prefix (scale_set req)).
Proof.
  split; [| split; [| split]].
  - intros w l w' t Hrun. rewrite get_managed_containers_eq in Hrun.
    injection Hrun as <- <- <-. apply Forall_forall.
    intros c Hin. exact (managed_in_managed w c Hin).
  - intros cl w l Hcl Hl.
    rewrite get_running_count_eq, get_managed_containers_eq.
    unfold running_in, managed_in, read_trace. rewrite Hcl, Hl.
    split; [reflexivity |].
    rewrite filter_filter_andb. reflexivity.
  - reflexivity.
  - repeat split.
    + apply create_container_within.
    + apply remove_container_within.
    + apply scale_up_within.
    + apply scale_down_within.
    + apply scale_set_within.
Qed.

End Prefix.

(** ** Counting the calls of a loop *)

Section Loops.
Context {W : Type}.

Lemma for_range_count {A} (f : event -> bool) (k : Z) (body : M W A) :
  (forall w a w' t, body w = (inr a, w', t) -> count_ev f t = k) ->
  forall n w u w' t,
    for_range n body w = (inr u, w', t) -> count_ev f t = Z.of_nat n * k.
Proof.
  intros Hb. induction n as [| n IH]; intros w u w' t; cbn [for_range].
  - intros [= _ _ <-]. reflexivity.
  - unfold bind. destruct (body w) as [[[e | a] w1] t1] eqn:Eb; [discriminate |].
    destruct (for_range n body w1) as [[r2 w2] t2] eqn:Er.
    intros [= -> <- <-]. rewrite count_ev_app.
    rewrite (Hb _ _ _ _ Eb), (IH _ _ _ _ Er), Nat2Z.inj_succ. ring.
Qed.

(** A loop that raises completed some [k < n] rounds, then met the round
    that raised; nothing runs after it. *)
Lemma for_range_fails {A} (body : M W A) :
  forall n w e w' t,
    for_range n body w = (inl e, w', t) ->
    exists k wk tk te,
      (k < n)%nat /\
      for_range k body w = (inr tt, wk, tk) /\
      body wk = (inl e, w', te) /\
      t = tk ++ te.
Proof.
  induction n as [| n IH]; intros w e w' t; simpl.
  - discriminate.
  - unfold bind. destruct (body w) as [[[e1 | a] w1] t1] eqn:Eb.
    + intros [= <- <- <-]. exists O, w, [], t1.
      repeat split; [lia | exact Eb].
    + destruct (for_range n body w1) as [[r2 w2] t2] eqn:Er.
      intros [= -> <- <-].
      destruct (IH _ _ _ _ Er) as (k & wk & tk & te & Hk & Hpre & Hfail & ->).
      exists (S k), wk, (t1 ++ tk), te.
      repeat split; [lia | | exact Hfail | apply app_assoc].
      simpl. unfold bind. rewrite Eb, Hpre. reflexivity.
Qed.

End Loops.

Section Reconciler.
Context {W : Type} `{E : Env W}.

Lemma create_container_counts w c w' t :
  create_container w = (inr c, w', t) ->
  count_ev is_run t = 1 /\ count_ev is_stop t = 0 /\ count_ev is_remove t = 0.
Proof.
  intros Hrun. destruct docker_client as [cl |] eqn:Hcl.
  - rewrite (create_container_eq cl w Hcl) in Hrun. cbv zeta in Hrun.
    destruct (containers_run cl _ _ _ _ _ w) as [r0 w0].
    injection Hrun as _ _ <-. repeat split.
  - rewrite (create_container_offline w Hcl) in Hrun. discriminate.
Qed.

Lemma create_container_quiet w r w' t :
  create_container w = (r, w', t) ->
  count_ev is_stop t = 0 /\ count_ev is_remove t = 0.
Proof.
  intros Hrun. destruct docker_client as [cl |] eqn:Hcl.
  - rewrite (create_container_eq cl w Hcl) in Hrun. cbv zeta in Hrun.
    destruct (containers_run cl _ _ _ _ _ w) as [r0 w0].
    injection Hrun as _ _ <-. split; reflexivity.
  - rewrite (create_container_offline w Hcl) in Hrun.
    injection Hrun as _ _ <-. split; reflexivity.
Qed.

Lemma remove_container_trace w r w' t :
  remove_container w = (r, w', t) ->
  count_ev is_run t = 0 /\
  (forall nm, r = inr nm ->
     count_ev is_stop t = 1 /\ count_ev is_remove t = 1).
Proof.
  intros Hrun. destruct docker_client as [cl |] eqn:Hcl.
  - rewrite (remove_container_eq cl w Hcl) in Hrun.
    destruct (victim w) as [c |].
    + destruct (container_stop cl c 10 w) as [[e1 | u1] w1].
      * injection Hrun as <- _ <-. split; [reflexivity | discriminate].
      * destruct (container_remove cl c w1) as [[e2 | u2] w2];
          injection Hrun as <- _ <-;
          (split; [reflexivity | intros nm Hnm; try discriminate; split; reflexivity]).
    + injection Hrun as <- _ <-. split; [reflexivity | discriminate].
  - rewrite (remove_container_offline w Hcl) in Hrun.
    injection Hrun as <- _ <-. split; [reflexivity | discriminate].
Qed.

Lemma scale_set_try_valid d target w :
  py_int (assoc_get "count" d) = inr target ->
  MIN_CONTAINERS <= target <= MAX_CONTAINERS ->
  scale_set_try (JsonBody (JDict d)) w =
    match reconcile (target - running_in w) w with
    | (inl e, w1, t1) => (inl e, w1, read_trace ++ t1)
    | (inr _, w1, t1) =>
        (inr (jsonify (set_body target (running_in w) (running_in w1))),
         w1, read_trace ++ t1 ++ read_trace)
    end.
Proof.
  intros Hint [Hlo Hhi].
  unfold scale_set_try, get_json, py_get, lift_result.
  unfold bind at 1 2. unfold ret at 1 2. cbv iota beta. cbn [app].
  assert (Hn : is_none (assoc_get "count" d) = false).
  { destruct (assoc_get "count" d); try reflexivity. discriminate. }
  rewrite Hn, Hint.
  unfold bind at 1. unfold ret at 1. cbv iota beta. cbn [app].
  assert (Hb : (target <? MIN_CONTAINERS) || (MAX_CONTAINERS <? target) = false).
  { apply orb_false_iff. split; apply Z.ltb_ge; assumption. }
  rewrite Hb. unfold bind at 1. rewrite get_running_count_eq.
  unfold bind at 1. fold (reconcile (target - running_in w)).
  destruct (reconcile (target - running_in w) w) as [[[e | u] w1] t1];
    [reflexivity |].
  unfold bind. rewrite get_running_count_eq. unfold ret.
  rewrite app_nil_r. reflexivity.
Qed.

End Reconciler.

Section Reconciliation.
Context {W : Type} `{E : Env W}.

Lemma creates_count n w u w' t :
  for_range n create_container w = (inr u, w', t) ->
  count_ev is_run t = Z.of_nat n /\
  count_ev is_stop t = 0 /\ count_ev is_remove t = 0.
Proof.
  intros Hrun.
  pose proof (for_range_count is_run 1 create_container
    (fun w0 a w1 t0 H => proj1 (create_container_counts w0 a w1 t0 H))
    _ _ _ _ _ Hrun) as H1.
  pose proof (for_range_count is_stop 0 create_container
    (fun w0 a w1 t0 H => proj1 (proj2 (create_container_counts w0 a w1 t0 H)))
    _ _ _ _ _ Hrun) as H2.
  pose proof (for_range_count is_remove 0 create_container
    (fun w0 a w1 t0 H => proj2 (proj2 (create_container_counts w0 a w1 t0 H)))
    _ _ _ _ _ Hrun) as H3.
  lia.
Qed.

Lemma removes_count n w u w' t :
  for_range n remove_container w = (inr u, w', t) ->
  count_ev is_run t = 0 /\
  count_ev is_stop t = Z.of_nat n /\ count_ev is_remove t = Z.of_nat n.
Proof.
  intros Hrun.
  pose proof (for_range_count is_run 0 remove_container
    (fun w0 a w1 t0 H => proj1 (remove_container_trace w0 _ w1 t0 H))
    _ _ _ _ _ Hrun) as H1.
  pose proof (for_range_count is_stop 1 remove_container
    (fun w0 a w1 t0 H =>
       proj1 (proj2 (remove_container_trace w0 _ w1 t0 H) a eq_refl))
    _ _ _ _ _ Hrun) as H2.
  pose proof (for_range_count is_remove 1 remove_container
    (fun w0 a w1 t0 H =>
       proj2 (proj2 (remove_container_trace w0 _ w1 t0 H) a eq_refl))
    _ _ _ _ _ Hrun) as H3.
  lia.
Qed.

Lemma reconcile_counts diff w u w' t :
  reconcile diff w = (inr u, w', t) ->
  (0 < diff ->
     count_ev is_run t = diff /\
     count_ev is_stop t = 0 /\ count_ev is_remove t = 0) /\
  (diff < 0 ->
     count_ev is_run t = 0 /\
     count_ev is_stop t = - diff /\ count_ev is_remove t = - diff) /\
  (diff = 0 -> t = [] /\ w' = w).
Proof.
  unfold reconcile. intros Hrun.
  destruct (0 <? diff) eqn:Hpos.
  - apply Z.ltb_lt in Hpos. apply creates_count in Hrun.
    rewrite Z2Nat.id in Hrun by lia.
    split; [intros _; exact Hrun |]. split; intros; lia.
  - apply Z.ltb_ge in Hpos. destruct (diff <? 0) eqn:Hneg.
    + apply Z.ltb_lt in Hneg. apply removes_count in Hrun.
      rewrite Z2Nat.id in Hrun by lia. rewrite Z.abs_neq in Hrun by lia.
      split; [intros; lia |]. split; [intros _; exact Hrun | intros; lia].
    + apply Z.ltb_ge in Hneg. injection Hrun as _ <- <-.
      split; [intros; lia |]. split; [intros; lia | intros _; split; reflexivity].
Qed.

Lemma count_mutation_nil : count_ev is_mutation (read_trace ++ [] ++ read_trace) = 0.
Proof.
  rewrite !count_ev_app, (count_read_trace is_mutation) by reflexivity.
  reflexivity.
Qed.

(** What the answer of [scale_set] tells about the calls, for an in-bounds
    target: a completed loop gives a 200, a 200 carries exactly the calls of
    the signed difference, and a zero difference mutates nothing. *)
Lemma set_answer_counts (d : list (string * json)) (target : Z) (w : W) :
  py_int (assoc_get "count" d) = inr target ->
  MIN_CONTAINERS <= target <= MAX_CONTAINERS ->
  let req := JsonBody (JDict d) in
  let current := running_in w in
  let delta := target - current in
  (forall u w1 t1,
     reconcile delta w = (inr u, w1, t1) ->
     scale_set req w =
       (inr (jsonify (set_body target current (running_in w1))),
        w1, read_trace ++ t1 ++ read_trace)) /\
  (forall resp w' t,
     scale_set req w = (inr resp, w', t) ->
     status_code resp = 200 ->
     field "previous_count" (body resp) = Some (VInt current) /\
     (0 < delta ->
        count_ev is_run t = delta /\
        count_ev is_stop t = 0 /\ count_ev is_remove t = 0) /\
     (delta < 0 ->
        count_ev is_run t = 0 /\
        count_ev is_stop t = Z.abs delta /\
        count_ev is_remove t = Z.abs delta)) /\
  (delta = 0 ->
     scale_set req w =
       (inr (jsonify (set_body target target target)), w,
        read_trace ++ [] ++ read_trace) /\
     count_ev is_mutation (read_trace ++ [] ++ read_trace) = 0).
Proof.
  intros Hint Hb req current delta.
  assert (Hset : scale_set req w =
            match reconcile delta w with
            | (inl e, w1, t1) =>
                (inr (jsonify_code (error_body e) 500), w1, read_trace ++ t1)
            | (inr _, w1, t1) =>
                (inr (jsonify (set_body target current (running_in w1))),
                 w1, read_trace ++ t1 ++ read_trace)
            end).
  { unfold scale_set, req. rewrite handler_eq, (scale_set_try_valid d target w Hint Hb).
    fold current. fold delta.
    destruct (reconcile delta w) as [[[e | u] w1] t1]; reflexivity. }
  split; [| split].
  - intros u w1 t1 Hrec. rewrite Hset, Hrec. reflexivity.
  - intros resp w' t Hrun Hcode. rewrite Hset in Hrun.
    destruct (reconcile delta w) as [[[e | u] w1] t1] eqn:Hrec.
    + injection Hrun as <- _ _. discriminate Hcode.
    + injection Hrun as <- <- <-.
      destruct (reconcile_counts _ _ _ _ _ Hrec) as (Hp & Hn & _).
      split; [reflexivity |].
      rewrite !count_ev_app, !count_read_trace by reflexivity.
      split; intros Hd; [destruct (Hp Hd) as (-> & -> & ->)
                        | destruct (Hn Hd) as (-> & -> & ->)];
        repeat split; lia.
  - intros Hd. split; [| apply count_mutation_nil].
    rewrite Hset. unfold reconcile.
    replace (0 <? delta) with false by (symmetry; apply Z.ltb_ge; lia).
    replace (delta <? 0) with false by (symmetry; apply Z.ltb_ge; lia).
    assert (Hc : running_in w = target) by (unfold delta, current in Hd; lia).
    unfold ret, current. rewrite Hc. reflexivity.
Qed.

(** C5. When a call of the reconciliation loop of [scale_set] raises, the
    handler answers 500 and does nothing more: the state it leaves is the
    one the failing call left, on top of the [k] rounds that had completed.
    No stop or remove call follows a failed creation and no run call follows
    a failed removal, so nothing that was done is undone. *)
Theorem scale_set_no_rollback (d : list (string * json)) (target : Z) (w : W) :
  py_int (assoc_get "count" d) = inr target ->
  MIN_CONTAINERS <= target <= MAX_CONTAINERS ->
  let req := JsonBody (JDict d) in
  let delta := target - running_in w in
  forall e w' t,
    scale_set_try req w = (inl e, w', t) ->
    scale_set req w = (inr (jsonify_code (error_body e) 500), w', t) /\
    (0 < delta ->
       exists k wk tk te,
         (k < Z.to_nat delta)%nat /\
         for_range k create_container w = (inr tt, wk, tk) /\
         create_container wk = (inl e, w', te) /\
         t = read_trace ++ tk ++ te /\
         count_ev is_run tk = Z.of_nat k /\
         count_ev is_stop t = 0 /\ count_ev is_remove t = 0) /\
    (delta < 0 ->
       exists k wk tk te,
         (k < Z.to_nat (Z.abs delta))%nat /\
         for_range k remove_container w = (inr tt, wk, tk) /\
         remove_container wk = (inl e, w', te) /\
         t = read_trace ++ tk ++ te /\
         count_ev is_stop tk = Z.of_nat k /\
         count_ev is_remove tk = Z.of_nat k /\
         count_ev is_run t = 0) /\
    delta <> 0.
Proof.
  intros Hint Hb req delta e w' t Htry.
  split.
  { unfold scale_set. rewrite handler_eq, Htry. reflexivity. }
  unfold req in Htry. rewrite (scale_set_try_valid d target w Hint Hb) in Htry.
  fold delta in Htry.
  destruct (reconcile delta w) as [[[e1 | u] w1] t1] eqn:Hrec; [| discriminate].
  injection Htry as <- <- <-.
  unfold reconcile in Hrec.
  destruct (0 <? delta) eqn:Hpos.
  - apply Z.ltb_lt in Hpos.
    destruct (for_range_fails _ _ _ _ _ _ Hrec)
      as (k & wk & tk & te & Hk & Hpre & Hfail & ->).
    split; [| split; [intros; lia | lia]].
    intros _. exists k, wk, tk, te.
    destruct (creates_count _ _ _ _ _ Hpre) as (Hr & Hs & Hm).
    destruct (create_container_quiet _ _ _ _ Hfail) as (Hs' & Hm').
    repeat split; try assumption.
    + rewrite !count_ev_app, count_read_trace by reflexivity. lia.
    + rewrite !count_ev_app, count_read_trace by reflexivity. lia.
  - apply Z.ltb_ge in Hpos. destruct (delta <? 0) eqn:Hneg.
    + apply Z.ltb_lt in Hneg.
      destruct (for_range_fails _ _ _ _ _ _ Hrec)
        as (k & wk & tk & te & Hk & Hpre & Hfail & ->).
      split; [intros; lia |]. split; [| lia].
      intros _. exists k, wk, tk, te.
      destruct (removes_count _ _ _ _ _ Hpre) as (Hr & Hs & Hm).
      destruct (remove_container_trace _ _ _ _ Hfail) as (Hr' & _).
      repeat split; try assumption.
      rewrite !count_ev_app, count_read_trace by reflexivity. lia.
    + discriminate.
Qed.

End Reconciliation.

Section Steps.
Context {W : Type} `{E : Env W}.

Lemma run_count_app l1 l2 : run_count (l1 ++ l2) = run_count l1 + run_count l2.
Proof. unfold run_count. rewrite !filter_app, length_app. lia. Qed.

Lemma run_count_cons c l :
  run_count (c :: l) =
    (if is_managed c && is_running c then 1 else 0) + run_count l.
Proof.
  unfold run_count. cbn [filter].
  destruct (is_managed c); cbn [filter andb];
    [destruct (is_running c); cbn [List.length] |]; lia.
Qed.

Lemma running_in_list cl w l :
  docker_client = Some cl -> containers_list cl w = inr l ->
  running_in w = run_count l.
Proof.
  intros Hcl Hl. unfold running_in, managed_in, run_count.
  rewrite Hcl, Hl. reflexivity.
Qed.

Lemma managed_in_listed cl w l c :
  docker_client = Some cl -> containers_list cl w = inr l ->
  In c (managed_in w) -> In c l.
Proof.
  intros Hcl Hl. unfold managed_in. rewrite Hcl, Hl.
  intros H. apply filter_In in H. tauto.
Qed.

Lemma not_running c : status c <> "running"%string -> is_running c = false.
Proof. intros H. unfold is_running. apply String.eqb_neq. exact H. Qed.

(** C4, amended.  On a runtime that nobody else changes and whose listing
    call succeeds in the state at entry, a
    [scale_up] that answers 200 reports
    [current_count = previous_count + 1] and a [scale_down] that answers 200
    reports [current_count = previous_count - 1]; [previous_count] is the
    running count of the state at entry, [current_count] that of the state
    at exit. *)
Theorem step_changes_count_by_one (cl : DockerClient W) (w : W)
    (l : list Container) :
  docker_client = Some cl ->
  SequentialDocker cl ->
  containers_list cl w = inr l ->
  (forall resp w' t,
     scale_up w = (inr resp, w', t) ->
     status_code resp = 200 ->
     field "previous_count" (body resp) = Some (VInt (running_in w)) /\
     field "current_count" (body resp) = Some (VInt (running_in w + 1)) /\
     running_in w' = running_in w + 1) /\
  (forall resp w' t,
     scale_down w = (inr resp, w', t) ->
     status_code resp = 200 ->
     field "previous_count" (body resp) = Some (VInt (running_in w)) /\
     field "current_count" (body resp) = Some (VInt (running_in w - 1)) /\
     running_in w' = running_in w - 1).
Proof.
  intros Hcl Laws Hl. split; intros resp w' t Hrun Hcode.
  - unfold scale_up in Hrun. rewrite handler_eq, scale_up_try_eq in Hrun.
    destruct (MAX_CONTAINERS <=? running_in w).
    { injection Hrun as <- _ _. discriminate Hcode. }
    rewrite (create_container_eq cl w Hcl) in Hrun. cbv zeta in Hrun.
    destruct (containers_run cl _ _ _ _ _ w) as [[e | c] w1] eqn:Hr.
    { injection Hrun as <- _ _. discriminate Hcode. }
    injection Hrun as <- <- <-.
    destruct (run_adds cl Laws _ _ _ _ _ _ _ _ _ Hr Hl)
      as (l1 & l2 & c' & -> & Hl1 & Hnm & Hst).
    assert (Hcount : running_in w1 = running_in w + 1).
    { rewrite (running_in_list cl w1 _ Hcl Hl1), (running_in_list cl w _ Hcl Hl).
      rewrite !run_count_app, run_count_cons.
      assert (Hm : is_managed c' = true).
      { unfold is_managed. rewrite Hnm. unfold startswith, container_name.
        apply prefix_append. }
      assert (Hrn : is_running c' = true).
      { unfold is_running. rewrite Hst. reflexivity. }
      rewrite Hm, Hrn. cbn [andb]. lia. }
    simpl. rewrite Hcount. repeat split.
  - unfold scale_down in Hrun. rewrite handler_eq, scale_down_try_eq in Hrun.
    destruct (running_in w <=? MIN_CONTAINERS).
    { injection Hrun as <- _ _. discriminate Hcode. }
    rewrite (remove_container_eq cl w Hcl) in Hrun.
    destruct (victim w) as [c |] eqn:Hv.
    2:{ injection Hrun as <- _ _. discriminate Hcode. }
    destruct (victim_spec w c Hv) as (Hin & Hm & Hrn).
    destruct (container_stop cl c 10 w) as [[e1 | []] w1] eqn:Hs.
    { injection Hrun as <- _ _. discriminate Hcode. }
    destruct (container_remove cl c w1) as [[e2 | []] w2] eqn:Hd.
    { injection Hrun as <- _ _. discriminate Hcode. }
    injection Hrun as <- <- <-.
    destruct (stop_marks cl Laws _ _ _ _ _ Hs Hl
                (managed_in_listed cl w l c Hcl Hl Hin))
      as (l1 & l2 & c' & -> & Hl1 & Hnm & Hst).
    destruct (remove_deletes cl Laws _ _ _ _ Hd Hl1)
      as (l3 & x & l4 & Heq & Hl2 & Hnx & Hsx).
    assert (Hcount : running_in w2 = running_in w - 1).
    { rewrite (running_in_list cl w2 _ Hcl Hl2), (running_in_list cl w _ Hcl Hl).
      assert (H1 : run_count (l1 ++ c' :: l2) = run_count (l3 ++ l4)).
      { rewrite Heq, !run_count_app, run_count_cons.
        rewrite (not_running x Hsx), andb_false_r. lia. }
      rewrite <- H1, !run_count_app, !run_count_cons.
      rewrite (not_running c' Hst), andb_false_r, Hm, Hrn. cbn [andb]. lia. }
    simpl. rewrite Hcount. repeat split.
Qed.

End Steps.

Section Validation.
Context {W : Type} `{E : Env W}.

(** C7, amended.  Before any runtime call, [scale_set] answers 400 when the
    [count] field is absent or [null], and answers 500 (through the
    catch-all handler, with the text of the exception) when [count] is a
    value [int()] raises on, when the body is not an object, or when the
    body cannot be read as JSON.  In all four cases no call is issued and
    the state is unchanged. *)
Theorem scale_set_validation (w : W) :
  (forall d,
     assoc_get "count" d = JNull ->
     scale_set (JsonBody (JDict d)) w =
       (inr (jsonify_code [("success", VBool false);
                           ("message", VStr "Missing 'count' parameter")]%string
               400), w, [])) /\
  (forall d e,
     py_int (assoc_get "count" d) = inl e ->
     assoc_get "count" d <> JNull ->
     scale_set (JsonBody (JDict d)) w =
       (inr (jsonify_code (error_body e) 500), w, [])) /\
  (forall data e,
     py_get data "count" = inl e ->
     scale_set (JsonBody data) w =
       (inr (jsonify_code (error_body e) 500), w, [])) /\
  (forall e,
     scale_set (BadBody e) w =
       (inr (jsonify_code (error_body e) 500), w, [])).
Proof.
  split; [| split; [| split]].
  - intros d Hnone. unfold scale_set. rewrite handler_eq.
    unfold scale_set_try, get_json, py_get, lift_result.
    unfold bind at 1 2. unfold ret at 1 2. cbv iota beta. cbn [app].
    rewrite Hnone. reflexivity.
  - intros d e Hint Hnn. unfold scale_set. rewrite handler_eq.
    unfold scale_set_try, get_json, py_get, lift_result.
    unfold bind at 1 2. unfold ret at 1 2. cbv iota beta. cbn [app].
    assert (Hn : is_none (assoc_get "count" d) = false).
    { destruct (assoc_get "count" d); try reflexivity. contradiction. }
    rewrite Hn, Hint. reflexivity.
  - intros data e Hget. unfold scale_set. rewrite handler_eq.
    unfold scale_set_try, get_json, lift_result.
    unfold bind at 1 2. unfold ret at 1. cbv iota beta. cbn [app].
    rewrite Hget. reflexivity.
  - intros e. reflexivity.
Qed.

End Validation.

(** * The simulated daemon is a sequential Docker *)

Lemma mark_stopped_spec (c : Container) :
  forall l l',
    Sim.mark_stopped c l = Some l' ->
    exists l1 l2, l = l1 ++ c :: l2 /\ l' = l1 ++ Sim.stopped c :: l2.
Proof.
  induction l as [| x l IH]; intros l'; simpl; [discriminate |].
  destruct (Sim.Container_eq_dec x c) as [-> | ne].
  - intros [= <-]. exists [], l. split; reflexivity.
  - destruct (Sim.mark_stopped c l) as [l0 |]; [| discriminate].
    intros [= <-]. destruct (IH l0 eq_refl) as (l1 & l2 & -> & ->).
    exists (x :: l1), l2. split; reflexivity.
Qed.

Lemma delete_named_spec (nm : string) :
  forall l l',
    Sim.delete_named nm l = inr l' ->
    exists l1 x l2,
      l = l1 ++ x :: l2 /\ l' = l1 ++ l2 /\
      name x = nm /\ status x <> "running"%string.
Proof.
  induction l as [| x l IH]; intros l'; simpl; [discriminate |].
  destruct (Sim.has_name nm x) eqn:Hn.
  - destruct (is_running x) eqn:Hr; [discriminate |].
    intros [= <-]. exists [], x, l.
    repeat split; [apply String.eqb_eq, Hn | apply String.eqb_neq, Hr].
  - destruct (Sim.delete_named nm l) as [e | l0]; [discriminate |].
    intros [= <-]. destruct (IH l0 eq_refl) as (l1 & y & l2 & -> & -> & Hy).
    exists (x :: l1), y, l2. repeat split; apply Hy.
Qed.

Lemma sim_client_sequential : SequentialDocker Sim.client.
Proof.
  constructor.
  - intros img nm d r lbls w c w' l. simpl. unfold Sim.sim_run, Sim.sim_list.
    destruct (existsb (Sim.has_name nm) (Sim.inventory w)); [discriminate |].
    intros [= <- <-] [= <-].
    exists [], (Sim.inventory w). eexists. repeat split.
  - intros c t w w' l. simpl. unfold Sim.sim_stop, Sim.sim_list.
    destruct (Sim.mark_stopped c (Sim.inventory w)) as [l0 |] eqn:Hm;
      [| discriminate].
    intros [= <-] [= <-] _.
    destruct (mark_stopped_spec c _ _ Hm) as (l1 & l2 & -> & ->).
    exists l1, l2, (Sim.stopped c). repeat split. discriminate.
  - intros c w w' l. simpl. unfold Sim.sim_remove, Sim.sim_list.
    destruct (Sim.delete_named (name c) (Sim.inventory w)) as [e | l0] eqn:Hd;
      [discriminate |].
    intros [= <-] [= <-].
    destruct (delete_named_spec _ _ _ Hd) as (l1 & x & l2 & -> & -> & Hx).
    exists l1, x, l2. repeat split; apply Hx.
Qed.

(** C4 as stated fails when the listing call raises: on a daemon that
    nobody else touches, with one running managed container, [scale_up]
    creates a container and answers 200 with [previous_count] and
    [current_count] both 0. *)
Lemma step_count_listing_counterexample :
  SequentialDocker Sim.deaf_client /\
  (exists w' t,
     scale_up (E := Sim.unheard) Sim.w_one =
       (inr (jsonify [("success", VBool true);
                      ("message", VStr "Scaled up successfully");
                      ("container_name", VStr "scaled_app_1_1700000000");
                      ("previous_count", VInt 0);
                      ("current_count", VInt 0)]%string), w', t) /\
     count_ev is_run t = 1) /\
  0 <> 0 + 1.
Proof.
  split; [| split; [| discriminate]].
  - constructor.
    + intros img nm d r lbls w c w' l _ Hl. discriminate Hl.
    + intros c t w w' l _ Hl. discriminate Hl.
    + intros c w w' l _ Hl. discriminate Hl.
  - eexists. eexists. split; vm_compute; reflexivity.
Qed.

(** * The theorems at concrete deployments *)

(** C2 at the maximum and at the minimum. *)
Lemma step_rejected_no_mutation_witness :
  (MAX_CONTAINERS (Env := Sim.online) <= running_in (E := Sim.online) Sim.w_full /\
   exists resp t,
     scale_up (E := Sim.online) Sim.w_full = (inr resp, Sim.w_full, t) /\
     count_ev is_mutation t = 0 /\
     status_code resp = 400 /\
     field "current_count" (body resp) = Some (VInt 3)) /\
  (running_in (E := Sim.online) Sim.w_one <= MIN_CONTAINERS (Env := Sim.online) /\
   exists resp t,
     scale_down (E := Sim.online) Sim.w_one = (inr resp, Sim.w_one, t) /\
     count_ev is_mutation t = 0 /\
     status_code resp = 400 /\
     field "current_count" (body resp) = Some (VInt 1)).
Proof.
  split.
  - assert (Hb : MAX_CONTAINERS (Env := Sim.online)
                 <= running_in (E := Sim.online) Sim.w_full)
      by (vm_compute; discriminate).
    split; [exact Hb |].
    destruct (proj1 (step_rejected_no_mutation (E := Sim.online) Sim.w_full) Hb)
      as (resp & t & Hrun & Hq & Hc & _ & Hf).
    exists resp, t. repeat split; assumption.
  - assert (Hb : running_in (E := Sim.online) Sim.w_one
                 <= MIN_CONTAINERS (Env := Sim.online))
      by (vm_compute; discriminate).
    split; [exact Hb |].
    destruct (proj2 (step_rejected_no_mutation (E := Sim.online) Sim.w_one) Hb)
      as (resp & t & Hrun & Hq & Hc & _ & Hf).
    exists resp, t. repeat split; assumption.
Defined.

(** C3 as stated fails without a client handle: on a daemon with no
    container at all, [remove_container] raises "Docker client not
    available", not "No running containers to remove". *)
Lemma remove_container_offline_counterexample :
  filter is_running (managed_in (E := Sim.offline) Sim.w_empty) = [] /\
  Sim.inventory Sim.w_empty = [] /\
  remove_container (E := Sim.offline) Sim.w_empty =
    (inl (Exception "Docker client not available"), Sim.w_empty, []) /\
  Exception "Docker client not available" <> NoRunningContainers.
Proof.
  split; [reflexivity |]. split; [reflexivity |]. split; [reflexivity |].
  discriminate.
Qed.

(** C3, amended, with a client and nothing running, and with three running
    containers: the last of the listing is stopped, removed and named. *)
Lemma remove_container_policy_witness :
  docker_client (Env := Sim.online) = Some Sim.client /\
  filter is_running (managed_in (E := Sim.online) Sim.w_empty) = [] /\
  remove_container (E := Sim.online) Sim.w_empty =
    (inl NoRunningContainers, Sim.w_empty, [EvList]) /\
  exists w',
    remove_container (E := Sim.online) Sim.w_full =
      (inr "scaled_app_1_1699999000"%string, w',
       [EvList;
        EvStop (Sim.app "scaled_app_1_1699999000" "running") 10;
        EvRemove (Sim.app "scaled_app_1_1699999000" "running")]).
Proof.
  split; [reflexivity |]. split; [reflexivity |].
  destruct (proj2 (remove_container_policy (E := Sim.online) Sim.w_empty)
              Sim.client eq_refl) as (Hnone & _).
  split; [exact (Hnone eq_refl) |].
  destruct (proj2 (remove_container_policy (E := Sim.online) Sim.w_full)
              Sim.client eq_refl) as (_ & Hsome).
  destruct (Hsome _ _ eq_refl) as (_ & _ & Hstop).
  eexists.
  exact (Hstop _ _ eq_refl _ _ eq_refl).
Defined.

(** C4 on the simulated daemon. *)
Lemma step_changes_count_by_one_witness :
  docker_client (Env := Sim.online) = Some Sim.client /\
  SequentialDocker Sim.client /\
  containers_list Sim.client Sim.w_one = inr (Sim.inventory Sim.w_one) /\
  (exists resp w' t,
     scale_up (E := Sim.online) Sim.w_one = (inr resp, w', t) /\
     field "previous_count" (body resp) = Some (VInt 1) /\
     field "current_count" (body resp) = Some (VInt 2)) /\
  (exists resp w' t,
     scale_down (E := Sim.online) Sim.w_full = (inr resp, w', t) /\
     field "previous_count" (body resp) = Some (VInt 3) /\
     field "current_count" (body resp) = Some (VInt 2)).
Proof.
  split; [reflexivity |]. split; [exact sim_client_sequential |].
  split; [reflexivity |]. split.
  - destruct (step_changes_count_by_one (E := Sim.online) Sim.client Sim.w_one
                (Sim.inventory Sim.w_one) eq_refl sim_client_sequential eq_refl)
      as (Hup & _).
    eexists. eexists. eexists. split; [vm_compute; reflexivity |].
    destruct (Hup _ _ _ eq_refl eq_refl) as (Hp & Hc & _).
    split; [exact Hp | exact Hc].
  - destruct (step_changes_count_by_one (E := Sim.online) Sim.client Sim.w_full
                (Sim.inventory Sim.w_full) eq_refl sim_client_sequential eq_refl)
      as (_ & Hdown).
    eexists. eexists. eexists. split; [vm_compute; reflexivity |].
    destruct (Hdown _ _ _ eq_refl eq_refl) as (Hp & Hc & _).
    split; [exact Hp | exact Hc].
Defined.

(** C5 on the simulated daemon: the second of two creations meets a name
    that is taken; the first one stays, and two containers are running where
    one was. *)
Lemma scale_set_no_rollback_witness :
  py_int (E := Sim.online) (assoc_get "count" [("count", JInt 3)]%string) = inr 3 /\
  1 <= 3 <= 3 /\
  exists e w' t,
    scale_set_try (E := Sim.online) (Sim.count_body (JInt 3)) Sim.w_clash
      = (inl e, w', t) /\
    scale_set (E := Sim.online) (Sim.count_body (JInt 3)) Sim.w_clash
      = (inr (jsonify_code (error_body e) 500), w', t) /\
    running_in (E := Sim.online) Sim.w_clash = 1 /\
    running_in (E := Sim.online) w' = 2 /\
    count_ev is_run t = 2 /\ count_ev is_stop t = 0 /\ count_ev is_remove t = 0.
Proof.
  split; [reflexivity |]. split; [lia |].
  eexists. eexists. eexists. split; [vm_compute; reflexivity |].
  split.
  - exact (proj1 (scale_set_no_rollback (E := Sim.online)
                    [("count", JInt 3)]%string 3 Sim.w_clash eq_refl
                    ltac:(simpl; lia) _ _ _ eq_refl)).
  - repeat split.
Defined.

(** C6 on the simulated daemon: the stranger is not counted, the name is
    number 2. *)
Lemma create_container_naming_witness :
  docker_client (Env := Sim.online) = Some Sim.client /\
  exists c w',
    create_container (E := Sim.online) Sim.w_one =
      (inr c, w',
       [EvList;
        EvRun "nginx:alpine" "scaled_app_2_1700000000" true false
          [("managed_by", "auto_scaler")]%string]).
Proof.
  split; [reflexivity |].
  eexists. eexists.
  exact (proj2 (proj2 (create_container_naming (E := Sim.online)
                         Sim.client Sim.w_one eq_refl))).
Defined.

(** C7 as stated fails: a non-numeric [count] is answered 500, not 400; and
    a fractional [count] is truncated, accepted and acted upon. *)
Lemma scale_set_invalid_count_counterexample :
  scale_set (E := Sim.online) (Sim.count_body (JStr "abc")) Sim.w_one =
    (inr (jsonify_code [("success", VBool false);
                        ("message", VStrOf ValueError)]%string 500),
     Sim.w_one, []) /\
  500 <> 400 /\
  exists w',
    scale_set (E := Sim.online) (Sim.count_body (JFloat Sim.two_and_a_half))
      Sim.w_one =
      (inr (jsonify (set_body 2 1 2)), w',
       [EvList; EvList;
        EvRun "nginx:alpine" "scaled_app_2_1700000000" true false
          [("managed_by", "auto_scaler")]%string;
        EvList]).
Proof.
  split; [reflexivity |]. split; [discriminate |].
  eexists. vm_compute. reflexivity.
Qed.

(** C7, amended, on an empty object and on a non-numeric string. *)
Lemma scale_set_validation_witness :
  assoc_get "count" [] = JNull /\
  status_code
    (jsonify_code [("success", VBool false);
                   ("message", VStr "Missing 'count' parameter")]%string 400)
    = 400 /\
  scale_set (E := Sim.online) (JsonBody (JDict [])) Sim.w_one =
    (inr (jsonify_code [("success", VBool false);
                        ("message", VStr "Missing 'count' parameter")]%string
            400), Sim.w_one, []) /\
  py_int (E := Sim.online) (assoc_get "count" [("count", JStr "abc")]%string)
    = inl ValueError /\
  scale_set (E := Sim.online) (Sim.count_body (JStr "abc")) Sim.w_one =
    (inr (jsonify_code (error_body ValueError) 500), Sim.w_one, []).
Proof.
  destruct (scale_set_validation (E := Sim.online) Sim.w_one)
    as (Hmissing & Hint & _).
  split; [reflexivity |]. split; [reflexivity |].
  split; [exact (Hmissing [] eq_refl) |].
  split; [reflexivity |].
  refine (Hint [("count", JStr "abc")]%string ValueError eq_refl _).
  discriminate.
Defined.

(** C8 on the simulated daemon: the stranger, labelled as managed, is
    neither listed nor counted, and a scale-down does not touch it. *)
Lemma only_prefixed_containers_witness :
  docker_client (Env := Sim.online) = Some Sim.client /\
  get_managed_containers (E := Sim.online) Sim.w_one =
    (inr [Sim.app "scaled_app_1_1699999000" "running"], Sim.w_one, [EvList]) /\
  get_running_count (E := Sim.online) Sim.w_one = (inr 1, Sim.w_one, [EvList]) /\
  Forall (within_prefix (E := Sim.online))
    (snd (scale_set (E := Sim.online) (Sim.count_body (JInt 1)) Sim.w_full)).
Proof.
  destruct (only_prefixed_containers (E := Sim.online))
    as (_ & Hread & _ & _ & _ & _ & _ & Hset).
  destruct (Hread Sim.client Sim.w_one _ eq_refl eq_refl) as (Hm & Hc).
  split; [reflexivity |]. split; [exact Hm |]. split; [exact Hc |].
  destruct (scale_set (E := Sim.online) (Sim.count_body (JInt 1)) Sim.w_full)
    as [[r w'] t] eqn:Hrun.
  exact (Hset _ _ _ _ _ Hrun).
Defined.

(** C9 on a disconnected deployment in front of three running containers. *)
Lemma scale_down_offline_witness :
  docker_client (Env := Sim.offline) = None /\
  0 <= MIN_CONTAINERS (Env := Sim.offline) /\
  scale_down (E := Sim.offline) Sim.w_full =
    (inr (jsonify_code
            [("success", VBool false);
             ("message", VStr "Minimum container limit reached (1)");
             ("current_count", VInt 0)]%string 400),
     Sim.w_full, []).
Proof.
  split; [reflexivity |]. split; [simpl; lia |].
  exact (proj1 (proj2 (scale_down_offline (E := Sim.offline) Sim.w_full
                         eq_refl ltac:(simpl; lia)))).
Defined.

(** C10 at three running containers. *)
Lemma scale_down_never_empty_witness :
  0 <= MIN_CONTAINERS (Env := Sim.online) /\
  MIN_CONTAINERS (Env := Sim.online) < running_in (E := Sim.online) Sim.w_full /\
  filter is_running (managed_in (E := Sim.online) Sim.w_full) <> [].
Proof.
  split; [simpl; lia |]. split; [vm_compute; reflexivity |].
  exact (proj1 (scale_down_never_empty (E := Sim.online) Sim.w_full
                  ltac:(simpl; lia)) eq_refl).
Defined.

(** * Further properties of the handlers *)

Section Yields.
Context {W : Type}.

Lemma yields_ret {A} (Q : A -> Prop) (a : A) : Q a -> yields Q (@ret W A a).
Proof. intros Ha w a0 w' t [= <- _ _]. exact Ha. Qed.

Lemma yields_bind {A B} (Q : B -> Prop) (m : M W A) (k : A -> M W B) :
  (forall a, yields Q (k a)) -> yields Q (bind m k).
Proof.
  intros Hk w b w' t. unfold bind.
  destruct (m w) as [[[e | a] w1] t1]; [discriminate |].
  destruct (k a w1) as [[r2 w2] t2] eqn:Ek. intros [= -> _ _].
  eapply Hk; eassumption.
Qed.

Lemma handler_answers (m : M W response) :
  yields well_formed m ->
  forall w, exists resp w' t,
    try_except m internal_error w = (inr resp, w', t) /\ well_formed resp.
Proof.
  intros Hm w. rewrite handler_eq.
  destruct (m w) as [[[e | resp] w1] t1] eqn:Em.
  - eexists. eexists. eexists. split; [reflexivity |].
    right. right. split; reflexivity.
  - exists resp, w1, t1. split; [reflexivity |]. eapply Hm; eassumption.
Qed.

End Yields.

Section Answers.
Context {W : Type} `{E : Env W}.

Lemma scale_up_try_well_formed : yields well_formed scale_up_try.
Proof.
  apply yields_bind. intros current.
  destruct (MAX_CONTAINERS <=? current).
  - apply yields_ret. right. left. split; reflexivity.
  - apply yields_bind. intros c. apply yields_bind. intros n.
    apply yields_ret. left. split; reflexivity.
Qed.

Lemma scale_down_try_well_formed : yields well_formed scale_down_try.
Proof.
  apply yields_bind. intros current.
  destruct (current <=? MIN_CONTAINERS).
  - apply yields_ret. right. left. split; reflexivity.
  - apply yields_bind. intros c. apply yields_bind. intros n.
    apply yields_ret. left. split; reflexivity.
Qed.

Lemma scale_set_try_well_formed req : yields well_formed (scale_set_try req).
Proof.
  apply yields_bind. intros data. apply yields_bind. intros v.
  destruct (is_none v).
  { apply yields_ret. right. left. split; reflexivity. }
  apply yields_bind. intros target.
  destruct ((target <? MIN_CONTAINERS) || (MAX_CONTAINERS <? target)).
  { apply yields_ret. right. left. split; reflexivity. }
  apply yields_bind. intros current. apply yields_bind. intros _.
  apply yields_bind. intros n. apply yields_ret. left. split; reflexivity.
Qed.

(** X2. No exception leaves a handler: whatever the runtime and the request do,
    [scale_up], [scale_down] and [scale_set] return a response, whose status
    is 200 with [success] true, or 400 or 500 with [success] false. *)
Theorem handlers_always_answer (w : W) :
  (exists resp w' t, scale_up w = (inr resp, w', t) /\ well_formed resp) /\
  (exists resp w' t, scale_down w = (inr resp, w', t) /\ well_formed resp) /\
  (forall req,
     exists resp w' t, scale_set req w = (inr resp, w', t) /\ well_formed resp).
Proof.
  split; [| split].
  - apply handler_answers, scale_up_try_well_formed.
  - apply handler_answers, scale_down_try_well_formed.
  - intros req. apply handler_answers, scale_set_try_well_formed.
Qed.

Lemma scale_set_out_of_range_eq (d : list (string * json)) (target : Z) (w : W) :
  py_int (assoc_get "count" d) = inr target ->
  target < MIN_CONTAINERS \/ MAX_CONTAINERS < target ->
  scale_set (JsonBody (JDict d)) w =
    (inr (jsonify_code
            [("success", VBool false);
             ("message", VStr ("Count must be between "
                               ++ str_of_int MIN_CONTAINERS ++ " and "
                               ++ str_of_int MAX_CONTAINERS)%string)]%string
            400), w, []).
Proof.
  intros Hint Hout. unfold scale_set. rewrite handler_eq.
  unfold scale_set_try, get_json, py_get, lift_result.
  unfold bind at 1 2. unfold ret at 1 2. cbv iota beta. cbn [app].
  assert (Hn : is_none (assoc_get "count" d) = false).
  { destruct (assoc_get "count" d); try reflexivity. discriminate. }
  rewrite Hn, Hint. unfold bind at 1. unfold ret at 1. cbv iota beta. cbn [app].
  assert (Hb : (target <? MIN_CONTAINERS) || (MAX_CONTAINERS <? target) = true).
  { apply orb_true_iff. destruct Hout as [H | H];
      [left | right]; apply Z.ltb_lt; exact H. }
  rewrite Hb. reflexivity.
Qed.

(** X1. A [count] that converts to an integer outside [[MIN, MAX]] is answered
    400 before the inventory is read: no runtime call at all, the state
    unchanged, whatever the runtime holds. *)
Theorem scale_set_out_of_range (d : list (string * json)) (target : Z) (w : W) :
  py_int (assoc_get "count" d) = inr target ->
  target < MIN_CONTAINERS \/ MAX_CONTAINERS < target ->
  exists resp,
    scale_set (JsonBody (JDict d)) w = (inr resp, w, []) /\
    status_code resp = 400 /\
    field "success" (body resp) = Some (VBool false) /\
    field "message" (body resp) =
      Some (VStr ("Count must be between " ++ str_of_int MIN_CONTAINERS
                  ++ " and " ++ str_of_int MAX_CONTAINERS)%string) /\
    field "current_count" (body resp) = None.
Proof.
  intros Hint Hout. eexists.
  split; [exact (scale_set_out_of_range_eq d target w Hint Hout) |].
  repeat split.
Qed.

(** X3. Without a client handle a scale-up that passes the bound check, and a
    [scale_set] to a positive in-bounds target, are answered 500 with
    "Docker client not available"; nothing is called. *)
Theorem scaling_up_offline (w : W) :
  docker_client = None ->
  (0 < MAX_CONTAINERS ->
     scale_up w = (inr (jsonify_code (error_body RuntimeUnavailable) 500), w, [])) /\
  (forall d target,
     py_int (assoc_get "count" d) = inr target ->
     MIN_CONTAINERS <= target <= MAX_CONTAINERS ->
     0 < target ->
     scale_set (JsonBody (JDict d)) w =
       (inr (jsonify_code (error_body RuntimeUnavailable) 500), w, [])).
Proof.
  intros Hcl. split.
  - intros Hmax. unfold scale_up. rewrite handler_eq, scale_up_try_eq.
    rewrite (running_in_offline w Hcl).
    replace (MAX_CONTAINERS <=? 0) with false by (symmetry; apply Z.leb_gt; lia).
    rewrite (create_container_offline w Hcl).
    unfold read_trace. rewrite Hcl. reflexivity.
  - intros d target Hint Hb Hpos. unfold scale_set.
    rewrite handler_eq, (scale_set_try_valid d target w Hint Hb).
    rewrite (running_in_offline w Hcl). unfold reconcile.
    replace (0 <? target - 0) with true by (symmetry; apply Z.ltb_lt; lia).
    destruct (Z.to_nat (target - 0)) as [| n] eqn:Hn; [lia |].
    cbn [for_range]. unfold bind at 1.
    rewrite (create_container_offline w Hcl).
    unfold read_trace. rewrite Hcl. reflexivity.
Qed.

(** X4. The inventory reader fails open.  When the listing call raises, the
    managed list reads empty and the running count 0, without an exception;
    so, with [MIN >= 0], [scale_down] answers the minimum-limit 400 and
    mutates nothing, and, with [MAX > 0], [scale_up] passes the bound check
    and asks for a container numbered 1. *)
Theorem listing_failure_reads_empty (cl : DockerClient W) (w : W) (e : exn) :
  docker_client = Some cl ->
  containers_list cl w = inl e ->
  get_managed_containers w = (inr [], w, [EvList]) /\
  get_running_count w = (inr 0, w, [EvList]) /\
  (0 <= MIN_CONTAINERS ->
     scale_down w =
       (inr (jsonify_code (limit_body min_message 0) 400), w, [EvList])) /\
  (0 < MAX_CONTAINERS ->
     exists r w' t,
       scale_up w =
         (r, w',
          [EvList; EvList;
           EvRun CONTAINER_IMAGE (container_name 0 (now_timestamp w)) true false
             [("managed_by", "auto_scaler")]%string] ++ t)).
Proof.
  intros Hcl Hl.
  assert (Hm : managed_in w = []) by (unfold managed_in; rewrite Hcl, Hl; reflexivity).
  assert (Hr : running_in w = 0) by (unfold running_in; rewrite Hm; reflexivity).
  assert (Ht : read_trace = [EvList]) by (unfold read_trace; rewrite Hcl; reflexivity).
  split; [rewrite get_managed_containers_eq, Hm, Ht; reflexivity |].
  split; [rewrite get_running_count_eq, Hr, Ht; reflexivity |].
  split.
  - intros Hmin. unfold scale_down. rewrite handler_eq, scale_down_try_eq, Hr, Ht.
    replace (0 <=? MIN_CONTAINERS) with true by (symmetry; apply Z.leb_le; lia).
    reflexivity.
  - intros Hmax. unfold scale_up. rewrite handler_eq, scale_up_try_eq, Hr, Ht.
    replace (MAX_CONTAINERS <=? 0) with false by (symmetry; apply Z.leb_gt; lia).
    rewrite (create_container_eq cl w Hcl), Hm. cbv zeta. cbn [List.length Z.of_nat].
    destruct (containers_run cl _ _ _ _ _ w) as [[e1 | c] w1].
    + eexists. eexists. exists []. reflexivity.
    + eexists. eexists. exists [EvList]. reflexivity.
Qed.

End Answers.

Section CallBounds.
Context {W : Type} `{E : Env W}.

Lemma for_range_count_le {A} (f : event -> bool) (k : Z) (body : M W A) :
  0 <= k ->
  (forall w r w' t, body w = (r, w', t) -> count_ev f t <= k) ->
  forall n w r w' t,
    for_range n body w = (r, w', t) -> count_ev f t <= Z.of_nat n * k.
Proof.
  intros Hk Hb. induction n as [| n IH]; intros w r w' t; cbn [for_range].
  - intros [= _ _ <-]. cbn. lia.
  - unfold bind. destruct (body w) as [[[e | a] w1] t1] eqn:Eb.
    + intros [= _ _ <-]. pose proof (Hb _ _ _ _ Eb). nia.
    + destruct (for_range n body w1) as [[r2 w2] t2] eqn:Er.
      intros [= _ _ <-]. rewrite count_ev_app.
      pose proof (Hb _ _ _ _ Eb). pose proof (IH _ _ _ _ Er). nia.
Qed.

Lemma create_container_any w r w' t :
  create_container w = (r, w', t) ->
  count_ev is_run t <= 1 /\ count_ev is_stop t = 0 /\ count_ev is_remove t = 0.
Proof.
  intros Hrun. split; [| exact (create_container_quiet _ _ _ _ Hrun)].
  destruct docker_client as [cl |] eqn:Hcl.
  - rewrite (create_container_eq cl w Hcl) in Hrun. cbv zeta in Hrun.
    destruct (containers_run cl _ _ _ _ _ w) as [r0 w0].
    injection Hrun as _ _ <-. cbn. lia.
  - rewrite (create_container_offline w Hcl) in Hrun.
    injection Hrun as _ _ <-. cbn. lia.
Qed.

Lemma remove_container_any w r w' t :
  remove_container w = (r, w', t) ->
  count_ev is_run t = 0 /\ count_ev is_stop t <= 1 /\
  count_ev is_remove t <= count_ev is_stop t.
Proof.
  intros Hrun. destruct docker_client as [cl |] eqn:Hcl.
  - rewrite (remove_container_eq cl w Hcl) in Hrun.
    destruct (victim w) as [c |].
    + destruct (container_stop cl c 10 w) as [[e1 | u1] w1].
      * injection Hrun as _ _ <-. cbn. lia.
      * destruct (container_remove cl c w1) as [[e2 | u2] w2];
          injection Hrun as _ _ <-; cbn; lia.
    + injection Hrun as _ _ <-. cbn. lia.
  - rewrite (remove_container_offline w Hcl) in Hrun.
    injection Hrun as _ _ <-. cbn. lia.
Qed.

Lemma count_read_run : count_ev is_run read_trace = 0.
Proof. apply count_read_trace. reflexivity. Qed.

Lemma count_read_stop : count_ev is_stop read_trace = 0.
Proof. apply count_read_trace. reflexivity. Qed.

Lemma count_read_remove : count_ev is_remove read_trace = 0.
Proof. apply count_read_trace. reflexivity. Qed.

(** What a 200 answer of a step handler tells about the run. *)
Lemma scale_up_200 w resp w' t :
  scale_up w = (inr resp, w', t) ->
  status_code resp = 200 ->
  running_in w < MAX_CONTAINERS /\
  exists c t1,
    create_container w = (inr c, w', t1) /\
    t = read_trace ++ t1 ++ read_trace /\
    resp = jsonify [("success", VBool true);
                    ("message", VStr "Scaled up successfully");
                    ("container_name", VStr (name c));
                    ("previous_count", VInt (running_in w));
                    ("current_count", VInt (running_in w'))]%string.
Proof.
  intros Hrun Hcode. unfold scale_up in Hrun.
  rewrite handler_eq, scale_up_try_eq in Hrun.
  destruct (MAX_CONTAINERS <=? running_in w) eqn:Hb.
  { injection Hrun as <- _ _. discriminate Hcode. }
  apply Z.leb_gt in Hb. split; [exact Hb |].
  destruct (create_container w) as [[[e | c] w1] t1].
  { injection Hrun as <- _ _. discriminate Hcode. }
  injection Hrun as <- <- <-. exists c, t1. repeat split.
Qed.

Lemma scale_down_200 w resp w' t :
  scale_down w = (inr resp, w', t) ->
  status_code resp = 200 ->
  MIN_CONTAINERS < running_in w /\
  exists nm t1,
    remove_container w = (inr nm, w', t1) /\
    t = read_trace ++ t1 ++ read_trace /\
    resp = jsonify [("success", VBool true);
                    ("message", VStr "Scaled down successfully");
                    ("removed_container", VStr nm);
                    ("previous_count", VInt (running_in w));
                    ("current_count", VInt (running_in w'))]%string.
Proof.
  intros Hrun Hcode. unfold scale_down in Hrun.
  rewrite handler_eq, scale_down_try_eq in Hrun.
  destruct (running_in w <=? MIN_CONTAINERS) eqn:Hb.
  { injection Hrun as <- _ _. discriminate Hcode. }
  apply Z.leb_gt in Hb. split; [exact Hb |].
  destruct (remove_container w) as [[[e | nm] w1] t1].
  { injection Hrun as <- _ _. discriminate Hcode. }
  injection Hrun as <- <- <-. exists nm, t1. repeat split.
Qed.

Lemma mutations_read : filter is_mutation read_trace = [].
Proof. unfold read_trace. destruct docker_client; reflexivity. Qed.

(** X5. One request, one step.  Whatever happens, the mutating calls of
    [scale_up] are none, or the one run call of [create_container]; those of
    [scale_down] are none, or the stop call (timeout 10) of the container
    [remove_container] picks, or that stop call followed by the remove call
    of the same container.  A 200 answer means the run call was issued,
    respectively the stop call and then the remove call. *)
Theorem step_handlers_single_step (w : W) :
  (forall r w' t,
     scale_up w = (r, w', t) ->
     let ev := EvRun CONTAINER_IMAGE
                 (container_name (Z.of_nat (List.length (managed_in w)))
                    (now_timestamp w))
                 true false [("managed_by", "auto_scaler")]%string in
     (filter is_mutation t = [] \/ filter is_mutation t = [ev]) /\
     (forall resp, r = inr resp -> status_code resp = 200 ->
        filter is_mutation t = [ev])) /\
  (forall r w' t,
     scale_down w = (r, w', t) ->
     (filter is_mutation t = [] \/
      exists c, victim w = Some c /\
        (filter is_mutation t = [EvStop c 10] \/
         filter is_mutation t = [EvStop c 10; EvRemove c])) /\
     (forall resp, r = inr resp -> status_code resp = 200 ->
        exists c, victim w = Some c /\
          filter is_mutation t = [EvStop c 10; EvRemove c])).
Proof.
  split; intros r w' t Hrun.
  - intros ev. unfold scale_up in Hrun.
    rewrite handler_eq, scale_up_try_eq in Hrun.
    destruct (MAX_CONTAINERS <=? running_in w).
    { injection Hrun as <- _ <-. rewrite mutations_read.
      split; [left; reflexivity |]. intros resp [= <-] Hcode. discriminate Hcode. }
    destruct docker_client as [cl |] eqn:Hcl.
    + rewrite (create_container_eq cl w Hcl) in Hrun. cbv zeta in Hrun.
      fold ev in Hrun.
      destruct (containers_run cl _ _ _ _ _ w) as [[e | c] w1];
        injection Hrun as <- _ <-; unfold read_trace; rewrite Hcl.
      * split; [right; reflexivity |].
        intros resp [= <-] Hcode. discriminate Hcode.
      * split; [right; reflexivity |]. intros resp _ _. reflexivity.
    + rewrite (create_container_offline w Hcl) in Hrun.
      injection Hrun as <- _ <-. unfold read_trace. rewrite Hcl.
      split; [left; reflexivity |]. intros resp [= <-] Hcode. discriminate Hcode.
  - unfold scale_down in Hrun.
    rewrite handler_eq, scale_down_try_eq in Hrun.
    destruct (running_in w <=? MIN_CONTAINERS).
    { injection Hrun as <- _ <-. rewrite mutations_read.
      split; [left; reflexivity |]. intros resp [= <-] Hcode. discriminate Hcode. }
    destruct docker_client as [cl |] eqn:Hcl.
    + rewrite (remove_container_eq cl w Hcl) in Hrun.
      destruct (victim w) as [c |] eqn:Hv.
      * destruct (container_stop cl c 10 w) as [[e1 | u1] w1].
        { injection Hrun as <- _ <-. unfold read_trace. rewrite Hcl.
          split; [right; exists c; split; [reflexivity | left; reflexivity] |].
          intros resp [= <-] Hcode. discriminate Hcode. }
        destruct (container_remove cl c w1) as [[e2 | u2] w2];
          injection Hrun as <- _ <-; unfold read_trace; rewrite Hcl.
        { split; [right; exists c; split; [reflexivity | right; reflexivity] |].
          intros resp [= <-] Hcode. discriminate Hcode. }
        split; [right; exists c; split; [reflexivity | right; reflexivity] |].
        intros resp _ _. exists c. split; reflexivity.
      * injection Hrun as <- _ <-. unfold read_trace. rewrite Hcl.
        split; [left; reflexivity |].
        intros resp [= <-] Hcode. discriminate Hcode.
    + rewrite (remove_container_offline w Hcl) in Hrun.
      injection Hrun as <- _ <-. unfold read_trace. rewrite Hcl.
      split; [left; reflexivity |]. intros resp [= <-] Hcode. discriminate Hcode.
Qed.

(** X6. [scale_set] never overshoots.  For an in-bounds target and whatever the
    outcome, it issues at most [delta] run calls and no stop or remove call
    when [delta >= 0], and at most [|delta|] stop calls, at most as many
    remove calls, and no run call when [delta <= 0]. *)
Theorem scale_set_never_overshoots (d : list (string * json)) (target : Z) (w : W) :
  py_int (assoc_get "count" d) = inr target ->
  MIN_CONTAINERS <= target <= MAX_CONTAINERS ->
  let delta := target - running_in w in
  forall r w' t,
    scale_set (JsonBody (JDict d)) w = (r, w', t) ->
    count_ev is_run t <= Z.max 0 delta /\
    count_ev is_stop t <= Z.max 0 (- delta) /\
    count_ev is_remove t <= Z.max 0 (- delta).
Proof.
  intros Hint Hb delta r w' t Hrun.
  assert (Hrec : forall r1 w1 t1,
            reconcile delta w = (r1, w1, t1) ->
            count_ev is_run t1 <= Z.max 0 delta /\
            count_ev is_stop t1 <= Z.max 0 (- delta) /\
            count_ev is_remove t1 <= Z.max 0 (- delta)).
  { intros r1 w1 t1 H1. unfold reconcile in H1.
    destruct (0 <? delta) eqn:Hpos.
    - apply Z.ltb_lt in Hpos.
      pose proof (for_range_count_le is_run 1 create_container ltac:(lia)
        (fun w0 r0 w2 t0 H => proj1 (create_container_any w0 r0 w2 t0 H))
        _ _ _ _ _ H1) as Hr.
      pose proof (for_range_count_le is_stop 0 create_container ltac:(lia)
        (fun w0 r0 w2 t0 H =>
           Z.eq_le_incl _ _ (proj1 (proj2 (create_container_any w0 r0 w2 t0 H))))
        _ _ _ _ _ H1) as Hs.
      pose proof (for_range_count_le is_remove 0 create_container ltac:(lia)
        (fun w0 r0 w2 t0 H =>
           Z.eq_le_incl _ _ (proj2 (proj2 (create_container_any w0 r0 w2 t0 H))))
        _ _ _ _ _ H1) as Hm.
      rewrite Z2Nat.id in Hr by lia. lia.
    - apply Z.ltb_ge in Hpos. destruct (delta <? 0) eqn:Hneg.
      + apply Z.ltb_lt in Hneg.
        pose proof (for_range_count_le is_run 0 remove_container ltac:(lia)
          (fun w0 r0 w2 t0 H =>
             Z.eq_le_incl _ _ (proj1 (remove_container_any w0 r0 w2 t0 H)))
          _ _ _ _ _ H1) as Hr.
        pose proof (for_range_count_le is_stop 1 remove_container ltac:(lia)
          (fun w0 r0 w2 t0 H => proj1 (proj2 (remove_container_any w0 r0 w2 t0 H)))
          _ _ _ _ _ H1) as Hs.
        pose proof (for_range_count_le is_remove 1 remove_container ltac:(lia)
          (fun w0 r0 w2 t0 H =>
             Z.le_trans _ _ _
               (proj2 (proj2 (remove_container_any w0 r0 w2 t0 H)))
               (proj1 (proj2 (remove_container_any w0 r0 w2 t0 H))))
          _ _ _ _ _ H1) as Hm.
        rewrite Z2Nat.id in Hs, Hm by lia. lia.
      + injection H1 as _ _ <-. cbn. lia. }
  unfold scale_set in Hrun.
  rewrite handler_eq, (scale_set_try_valid d target w Hint Hb) in Hrun.
  fold delta in Hrun.
  destruct (reconcile delta w) as [[[e | u] w1] t1] eqn:H1;
    injection Hrun as _ _ <-;
    destruct (Hrec _ _ _ eq_refl) as (Hr & Hs & Hm);
    rewrite !count_ev_app, ?count_read_run, ?count_read_stop, ?count_read_remove;
    lia.
Qed.

End CallBounds.

(** ** On a sequential runtime the counts follow the calls *)

Section Sequential.
Context {W : Type} `{E : Env W}.
Variable cl : DockerClient W.
Hypothesis Hcl : docker_client = Some cl.
Hypothesis Laws : SequentialDocker cl.

Lemma create_adds_one w c w' t :
  listed cl w ->
  create_container w = (inr c, w', t) ->
  listed cl w' /\ running_in w' = running_in w + 1.
Proof.
  intros [l Hl] Hrun.
  rewrite (create_container_eq cl w Hcl) in Hrun. cbv zeta in Hrun.
  destruct (containers_run cl _ _ _ _ _ w) as [[e | c0] w1] eqn:Hr;
    [discriminate |].
  injection Hrun as _ <- _.
  destruct (run_adds cl Laws _ _ _ _ _ _ _ _ _ Hr Hl)
    as (l1 & l2 & c' & -> & Hl1 & Hnm & Hst).
  split; [eexists; exact Hl1 |].
  rewrite (running_in_list cl w1 _ Hcl Hl1), (running_in_list cl w _ Hcl Hl).
  rewrite !run_count_app, run_count_cons.
  assert (Hm : is_managed c' = true).
  { unfold is_managed. rewrite Hnm. unfold startswith, container_name.
    apply prefix_append. }
  assert (Hrn : is_running c' = true).
  { unfold is_running. rewrite Hst. reflexivity. }
  rewrite Hm, Hrn. cbn [andb]. lia.
Qed.

Lemma remove_drops_one w nm w' t :
  listed cl w ->
  remove_container w = (inr nm, w', t) ->
  listed cl w' /\ running_in w' = running_in w - 1.
Proof.
  intros [l Hl] Hrun.
  rewrite (remove_container_eq cl w Hcl) in Hrun.
  destruct (victim w) as [c |] eqn:Hv; [| discriminate].
  destruct (victim_spec w c Hv) as (Hin & Hm & Hrn).
  destruct (container_stop cl c 10 w) as [[e1 | []] w1] eqn:Hs; [discriminate |].
  destruct (container_remove cl c w1) as [[e2 | []] w2] eqn:Hd; [discriminate |].
  injection Hrun as _ <- _.
  destruct (stop_marks cl Laws _ _ _ _ _ Hs Hl
              (managed_in_listed cl w l c Hcl Hl Hin))
    as (l1 & l2 & c' & -> & Hl1 & Hnm & Hst).
  destruct (remove_deletes cl Laws _ _ _ _ Hd Hl1)
    as (l3 & x & l4 & Heq & Hl2 & Hnx & Hsx).
  split; [eexists; exact Hl2 |].
  rewrite (running_in_list cl w2 _ Hcl Hl2), (running_in_list cl w _ Hcl Hl).
  assert (H1 : run_count (l1 ++ c' :: l2) = run_count (l3 ++ l4)).
  { rewrite Heq, !run_count_app, run_count_cons.
    rewrite (not_running x Hsx), andb_false_r. lia. }
  rewrite <- H1, !run_count_app, !run_count_cons.
  rewrite (not_running c' Hst), andb_false_r, Hm, Hrn. cbn [andb]. lia.
Qed.

Lemma creates_add n : forall w u w' t,
  listed cl w ->
  for_range n create_container w = (inr u, w', t) ->
  listed cl w' /\ running_in w' = running_in w + Z.of_nat n.
Proof.
  induction n as [| n IH]; intros w u w' t Hl; cbn [for_range].
  - intros [= _ <- _]. split; [exact Hl | cbn; lia].
  - unfold bind. destruct (create_container w) as [[[e | c] w1] t1] eqn:Hc;
      [discriminate |].
    destruct (for_range n create_container w1) as [[r2 w2] t2] eqn:Hr.
    intros [= -> <- _].
    destruct (create_adds_one _ _ _ _ Hl Hc) as (Hl1 & H1).
    destruct (IH _ _ _ _ Hl1 Hr) as (Hl2 & H2).
    split; [exact Hl2 |]. rewrite H2, H1, Nat2Z.inj_succ. lia.
Qed.

Lemma removes_drop n : forall w u w' t,
  listed cl w ->
  for_range n remove_container w = (inr u, w', t) ->
  listed cl w' /\ running_in w' = running_in w - Z.of_nat n.
Proof.
  induction n as [| n IH]; intros w u w' t Hl; cbn [for_range].
  - intros [= _ <- _]. split; [exact Hl | cbn; lia].
  - unfold bind. destruct (remove_container w) as [[[e | c] w1] t1] eqn:Hc;
      [discriminate |].
    destruct (for_range n remove_container w1) as [[r2 w2] t2] eqn:Hr.
    intros [= -> <- _].
    destruct (remove_drops_one _ _ _ _ Hl Hc) as (Hl1 & H1).
    destruct (IH _ _ _ _ Hl1 Hr) as (Hl2 & H2).
    split; [exact Hl2 |]. rewrite H2, H1, Nat2Z.inj_succ. lia.
Qed.

Lemma reconcile_moves diff w u w' t :
  listed cl w ->
  reconcile diff w = (inr u, w', t) ->
  listed cl w' /\ running_in w' = running_in w + diff.
Proof.
  intros Hl Hrun. unfold reconcile in Hrun.
  destruct (0 <? diff) eqn:Hpos.
  - apply Z.ltb_lt in Hpos.
    destruct (creates_add _ _ _ _ _ Hl Hrun) as (Hl1 & H1).
    split; [exact Hl1 |]. rewrite H1, Z2Nat.id by lia. reflexivity.
  - apply Z.ltb_ge in Hpos. destruct (diff <? 0) eqn:Hneg.
    + apply Z.ltb_lt in Hneg.
      destruct (removes_drop _ _ _ _ _ Hl Hrun) as (Hl1 & H1).
      split; [exact Hl1 |]. rewrite H1, Z2Nat.id by lia. lia.
    + apply Z.ltb_ge in Hneg. injection Hrun as _ <- _.
      split; [exact Hl | lia].
Qed.

Lemma scale_set_200 d target w resp w' t :
  py_int (assoc_get "count" d) = inr target ->
  MIN_CONTAINERS <= target <= MAX_CONTAINERS ->
  listed cl w ->
  scale_set (JsonBody (JDict d)) w = (inr resp, w', t) ->
  status_code resp = 200 ->
  listed cl w' /\ running_in w' = target /\
  resp = jsonify (set_body target (running_in w) target).
Proof.
  intros Hint Hb Hl Hrun Hcode. unfold scale_set in Hrun.
  rewrite handler_eq, (scale_set_try_valid d target w Hint Hb) in Hrun.
  destruct (reconcile (target - running_in w) w) as [[[e | u] w1] t1] eqn:Hrec.
  { injection Hrun as <- _ _. discriminate Hcode. }
  injection Hrun as <- <- _.
  destruct (reconcile_moves _ _ _ _ _ Hl Hrec) as (Hl1 & H1).
  assert (Ht : running_in w1 = target) by lia.
  split; [exact Hl1 |]. split; [exact Ht |]. rewrite Ht. reflexivity.
Qed.

Lemma scale_set_settled d target w :
  py_int (assoc_get "count" d) = inr target ->
  MIN_CONTAINERS <= target <= MAX_CONTAINERS ->
  running_in w = target ->
  scale_set (JsonBody (JDict d)) w =
    (inr (jsonify (set_body target target target)), w, [EvList; EvList]).
Proof.
  intros Hint Hb Ht. unfold scale_set.
  rewrite handler_eq, (scale_set_try_valid d target w Hint Hb), Ht.
  unfold reconcile. rewrite Z.sub_diag. cbn [Z.ltb Z.compare]. unfold ret.
  rewrite Ht. unfold read_trace. rewrite Hcl. reflexivity.
Qed.

End Sequential.

Section SequentialTheorems.
Context {W : Type} `{E : Env W}.

(** X7. On a sequential runtime whose listing works, a [scale_set] that answers
    200 has reached its target: the state it leaves has exactly [target]
    running managed containers, and that is the [current_count] it
    reports. *)
Theorem scale_set_reaches_target (cl : DockerClient W)
    (d : list (string * json)) (target : Z) (w : W) :
  docker_client = Some cl ->
  SequentialDocker cl ->
  listed cl w ->
  py_int (assoc_get "count" d) = inr target ->
  MIN_CONTAINERS <= target <= MAX_CONTAINERS ->
  forall resp w' t,
    scale_set (JsonBody (JDict d)) w = (inr resp, w', t) ->
    status_code resp = 200 ->
    running_in w' = target /\
    field "previous_count" (body resp) = Some (VInt (running_in w)) /\
    field "current_count" (body resp) = Some (VInt target).
Proof.
  intros Hcl Laws Hl Hint Hb resp w' t Hrun Hcode.
  destruct (scale_set_200 cl Hcl Laws d target w resp w' t Hint Hb Hl Hrun Hcode)
    as (_ & Ht & ->).
  split; [exact Ht |]. split; reflexivity.
Qed.

(** X8. [scale_set] is idempotent on a sequential runtime: after a 200 answer,
    the same request again only reads the inventory twice, mutates nothing,
    leaves the state as it is and reports
    [previous_count = current_count = target]. *)
Theorem scale_set_idempotent (cl : DockerClient W)
    (d : list (string * json)) (target : Z) (w : W) :
  docker_client = Some cl ->
  SequentialDocker cl ->
  listed cl w ->
  py_int (assoc_get "count" d) = inr target ->
  MIN_CONTAINERS <= target <= MAX_CONTAINERS ->
  forall resp w' t,
    scale_set (JsonBody (JDict d)) w = (inr resp, w', t) ->
    status_code resp = 200 ->
    scale_set (JsonBody (JDict d)) w' =
      (inr (jsonify (set_body target target target)), w', [EvList; EvList]).
Proof.
  intros Hcl Laws Hl Hint Hb resp w' t Hrun Hcode.
  destruct (scale_set_200 cl Hcl Laws d target w resp w' t Hint Hb Hl Hrun Hcode)
    as (_ & Ht & _).
  exact (scale_set_settled cl Hcl d target w' Hint Hb Ht).
Qed.

(** X9. The handlers keep the running count within the configured bounds on a
    sequential runtime.  Unless it answers 500, [scale_up] never raises the
    count above [MAX] and [scale_down] never lowers it below [MIN]; a 400
    answer leaves the state untouched; and a [scale_set] that answers 200
    leaves a count within [[MIN, MAX]]. *)
Theorem bounds_are_kept (cl : DockerClient W) (w : W) :
  docker_client = Some cl ->
  SequentialDocker cl ->
  listed cl w ->
  (forall resp w' t,
     scale_up w = (inr resp, w', t) ->
     status_code resp <> 500 ->
     (status_code resp = 400 -> w' = w) /\
     running_in w <= running_in w' /\
     (running_in w <= MAX_CONTAINERS -> running_in w' <= MAX_CONTAINERS)) /\
  (forall resp w' t,
     scale_down w = (inr resp, w', t) ->
     status_code resp <> 500 ->
     (status_code resp = 400 -> w' = w) /\
     running_in w' <= running_in w /\
     (MIN_CONTAINERS <= running_in w -> MIN_CONTAINERS <= running_in w')) /\
  (forall d target resp w' t,
     py_int (assoc_get "count" d) = inr target ->
     scale_set (JsonBody (JDict d)) w = (inr resp, w', t) ->
     status_code resp = 200 ->
     MIN_CONTAINERS <= running_in w' <= MAX_CONTAINERS).
Proof.
  intros Hcl Laws Hl. split; [| split].
  - intros resp w' t Hrun Hcode.
    pose proof Hrun as Hrun0. unfold scale_up in Hrun.
    rewrite handler_eq, scale_up_try_eq in Hrun.
    destruct (MAX_CONTAINERS <=? running_in w) eqn:Hb.
    { injection Hrun as _ <- _. repeat split; intros; lia. }
    apply Z.leb_gt in Hb.
    destruct (create_container w) as [[[e | c] w1] t1] eqn:Hc.
    { injection Hrun as <- _ _. contradiction Hcode. reflexivity. }
    injection Hrun as <- <- _.
    destruct (create_adds_one cl Hcl Laws _ _ _ _ Hl Hc) as (_ & H1).
    split; [intros H400; discriminate H400 |]. lia.
  - intros resp w' t Hrun Hcode. unfold scale_down in Hrun.
    rewrite handler_eq, scale_down_try_eq in Hrun.
    destruct (running_in w <=? MIN_CONTAINERS) eqn:Hb.
    { injection Hrun as _ <- _. repeat split; intros; lia. }
    apply Z.leb_gt in Hb.
    destruct (remove_container w) as [[[e | c] w1] t1] eqn:Hc.
    { injection Hrun as <- _ _. contradiction Hcode. reflexivity. }
    injection Hrun as <- <- _.
    destruct (remove_drops_one cl Hcl Laws _ _ _ _ Hl Hc) as (_ & H1).
    split; [intros H400; discriminate H400 |]. lia.
  - intros d target resp w' t Hint Hrun Hcode.
    destruct (Z_lt_le_dec target MIN_CONTAINERS) as [Hlo | Hlo].
    { rewrite (scale_set_out_of_range_eq d target w Hint (or_introl Hlo)) in Hrun.
      injection Hrun as <- _ _. discriminate Hcode. }
    destruct (Z_lt_le_dec MAX_CONTAINERS target) as [Hhi | Hhi].
    { rewrite (scale_set_out_of_range_eq d target w Hint (or_intror Hhi)) in Hrun.
      injection Hrun as <- _ _. discriminate Hcode. }
    destruct (scale_set_200 cl Hcl Laws d target w resp w' t Hint
                (conj Hlo Hhi) Hl Hrun Hcode) as (_ & Ht & _).
    lia.
Qed.

(** X10. A scale-up followed by a scale-down, both answered 200 on a sequential
    runtime, brings the running count back to where it was; the second
    request reports the first one's [current_count] as its
    [previous_count]. *)
Theorem scale_up_then_down (cl : DockerClient W) (w : W) :
  docker_client = Some cl ->
  SequentialDocker cl ->
  listed cl w ->
  forall r1 w1 t1 r2 w2 t2,
    scale_up w = (inr r1, w1, t1) -> status_code r1 = 200 ->
    scale_down w1 = (inr r2, w2, t2) -> status_code r2 = 200 ->
    running_in w2 = running_in w /\
    field "current_count" (body r1) = field "previous_count" (body r2) /\
    field "current_count" (body r2) = field "previous_count" (body r1).
Proof.
  intros Hcl Laws Hl r1 w1 t1 r2 w2 t2 Hup Hc1 Hdown Hc2.
  destruct (scale_up_200 _ _ _ _ Hup Hc1) as (_ & c & tc & Hc & _ & ->).
  destruct (create_adds_one cl Hcl Laws _ _ _ _ Hl Hc) as (Hl1 & H1).
  destruct (scale_down_200 _ _ _ _ Hdown Hc2) as (_ & nm & tr & Hr & _ & ->).
  destruct (remove_drops_one cl Hcl Laws _ _ _ _ Hl1 Hr) as (_ & H2).
  split; [lia |]. split; [reflexivity |].
  cbn. f_equal. f_equal. lia.
Qed.

End SequentialTheorems.

(** ** The calls of [scale_set] when the runtime calls succeed *)

Section Delta.
Context {W : Type} `{E : Env W}.

Lemma running_listed cl w :
  docker_client = Some cl -> 0 < running_in w -> listed cl w.
Proof.
  intros Hcl Hpos. unfold running_in, managed_in in Hpos. rewrite Hcl in Hpos.
  destruct (containers_list cl w) as [e | l] eqn:Hl; [simpl in Hpos; lia |].
  exists l. exact Hl.
Qed.

Lemma creations_complete cl n : forall w,
  docker_client = Some cl ->
  runs_succeed cl n w ->
  exists w' t, for_range n create_container w = (inr tt, w', t).
Proof.
  induction n as [| n IH]; intros w Hcl Hok; cbn [for_range].
  - eexists. eexists. reflexivity.
  - destruct Hok as (c & w1 & Hr & Hrest).
    destruct (IH w1 Hcl Hrest) as (w' & t & Hloop).
    unfold bind. rewrite (create_container_eq cl w Hcl). cbv zeta.
    rewrite Hr, Hloop. eexists. eexists. reflexivity.
Qed.

Lemma removals_complete cl n : forall w,
  docker_client = Some cl ->
  SequentialDocker cl ->
  listed cl w ->
  Z.of_nat n <= running_in w ->
  removals_succeed cl n w ->
  exists w' t, for_range n remove_container w = (inr tt, w', t).
Proof.
  induction n as [| n IH]; intros w Hcl Laws Hl Hn Hok; cbn [for_range].
  - eexists. eexists. reflexivity.
  - destruct (victim_some w) as [c Hv]; [lia |].
    destruct (Hok c Hv) as (w1 & w2 & Hs & Hd & Hrest).
    assert (Hrem : remove_container w =
                   (inr (name c), w2, [EvList; EvStop c 10; EvRemove c])).
    { rewrite (remove_container_eq cl w Hcl), Hv, Hs, Hd. reflexivity. }
    destruct (remove_drops_one cl Hcl Laws _ _ _ _ Hl Hrem) as (Hl2 & H2).
    destruct (IH w2 Hcl Laws Hl2 ltac:(lia) Hrest) as (w' & t & Hloop).
    unfold bind. rewrite Hrem, Hloop. eexists. eexists. reflexivity.
Qed.

(** C1, amended.  For a request whose [count] converts to an in-bounds
    [target], with [current] the running count read once at entry and
    [delta = target - current]:
    - if [delta > 0], a client handle is present and the [delta] run calls
      succeed, [scale_set] answers 200 after exactly [delta] run calls and
      no stop or remove call;
    - if [delta < 0], [target >= 0], the runtime is sequential and the stop
      and remove calls succeed, [scale_set] answers 200 with
      [current_count = target] after exactly [|delta|] stop and [|delta|]
      remove calls and no run call;
    - if [delta = 0], [scale_set] issues no mutating call, leaves the state
      unchanged and answers 200 with
      [previous_count = current_count = target];
    - every 200 answer reports [previous_count = current] and was reached
      with exactly the calls above. *)
Theorem scale_set_delta (d : list (string * json)) (target : Z) (w : W) :
  py_int (assoc_get "count" d) = inr target ->
  MIN_CONTAINERS <= target <= MAX_CONTAINERS ->
  let req := JsonBody (JDict d) in
  let current := running_in w in
  let delta := target - current in
  (forall cl,
     docker_client = Some cl ->
     0 < delta ->
     runs_succeed cl (Z.to_nat delta) w ->
     exists w' t,
       scale_set req w =
         (inr (jsonify (set_body target current (running_in w'))), w', t) /\
       count_ev is_run t = delta /\
       count_ev is_stop t = 0 /\ count_ev is_remove t = 0) /\
  (forall cl,
     docker_client = Some cl ->
     SequentialDocker cl ->
     delta < 0 ->
     0 <= target ->
     removals_succeed cl (Z.to_nat (- delta)) w ->
     exists w' t,
       scale_set req w =
         (inr (jsonify (set_body target current target)), w', t) /\
       running_in w' = target /\
       count_ev is_run t = 0 /\
       count_ev is_stop t = - delta /\ count_ev is_remove t = - delta) /\
  (delta = 0 ->
     scale_set req w =
       (inr (jsonify (set_body target target target)), w,
        read_trace ++ [] ++ read_trace) /\
     count_ev is_mutation (read_trace ++ [] ++ read_trace) = 0) /\
  (forall resp w' t,
     scale_set req w = (inr resp, w', t) ->
     status_code resp = 200 ->
     field "previous_count" (body resp) = Some (VInt current) /\
     (0 < delta ->
        count_ev is_run t = delta /\
        count_ev is_stop t = 0 /\ count_ev is_remove t = 0) /\
     (delta < 0 ->
        count_ev is_run t = 0 /\
        count_ev is_stop t = Z.abs delta /\
        count_ev is_remove t = Z.abs delta)).
Proof.
  intros Hint Hb req current delta.
  destruct (set_answer_counts d target w Hint Hb) as (Hdone & H200 & Hzero).
  fold req current delta in Hdone, H200, Hzero.
  split; [| split; [| split; [exact Hzero | exact H200]]].
  - intros cl Hcl Hpos Hok.
    destruct (creations_complete cl _ w Hcl Hok) as (w' & t & Hloop).
    assert (Hrec : reconcile delta w = (inr tt, w', t)).
    { unfold reconcile.
      replace (0 <? delta) with true by (symmetry; apply Z.ltb_lt; exact Hpos).
      exact Hloop. }
    pose proof (Hdone _ _ _ Hrec) as Hrun.
    exists w', (read_trace ++ t ++ read_trace). split; [exact Hrun |].
    destruct (H200 _ _ _ Hrun eq_refl) as (_ & Hcounts & _).
    exact (Hcounts Hpos).
  - intros cl Hcl Laws Hneg Htarget Hok.
    assert (Hl : listed cl w).
    { apply running_listed; [exact Hcl |]. unfold delta, current in Hneg. lia. }
    destruct (removals_complete cl (Z.to_nat (- delta)) w Hcl Laws Hl)
      as (w' & t & Hloop);
      [rewrite Z2Nat.id; unfold delta, current in *; lia | exact Hok |].
    assert (Hrec : reconcile delta w = (inr tt, w', t)).
    { unfold reconcile.
      replace (0 <? delta) with false by (symmetry; apply Z.ltb_ge; lia).
      replace (delta <? 0) with true by (symmetry; apply Z.ltb_lt; exact Hneg).
      rewrite Z.abs_neq by lia. exact Hloop. }
    pose proof (Hdone _ _ _ Hrec) as Hrun.
    destruct (reconcile_moves cl Hcl Laws _ _ _ _ _ Hl Hrec) as (_ & Hmove).
    assert (Hreach : running_in w' = target) by (unfold delta, current in *; lia).
    rewrite Hreach in Hrun.
    exists w', (read_trace ++ t ++ read_trace). split; [exact Hrun |].
    split; [exact Hreach |].
    destruct (H200 _ _ _ Hrun eq_refl) as (_ & _ & Hcounts).
    destruct (Hcounts Hneg) as (Hr & Hs & Hm).
    rewrite Z.abs_neq in Hs, Hm by lia. repeat split; assumption.
Qed.

End Delta.

(** ** Names and the start-up top-up *)

Lemma append_cancel_l (p x y : string) :
  (p ++ x)%string = (p ++ y)%string -> x = y.
Proof.
  induction p as [| a p IH]; simpl; intros H; [exact H |].
  injection H as H. exact (IH H).
Qed.

(** A string is cut at its first underscore in one way only. *)
Lemma cut_unique (a a' b b' : string) :
  lacks "_" a -> lacks "_" a' ->
  (a ++ String "_" b)%string = (a' ++ String "_" b')%string ->
  a = a' /\ b = b'.
Proof.
  revert a'. induction a as [| x a IH]; intros [| x' a'] Ha Ha'; simpl.
  - intros [= ->]. split; reflexivity.
  - intros [= <- _]. destruct Ha' as [ne _]. contradiction ne. reflexivity.
  - intros [= -> _]. destruct Ha as [ne _]. contradiction ne. reflexivity.
  - intros [= -> H]. destruct Ha as [_ Ha]. destruct Ha' as [_ Ha'].
    destruct (IH a' Ha Ha' H) as [-> ->]. split; reflexivity.
Qed.

Lemma digits_lack_underscore (d : Decimal.uint) :
  lacks "_" (NilEmpty.string_of_uint d).
Proof. induction d; simpl; try (split; [discriminate | assumption]); exact I. Qed.

Lemma str_of_int_lacks_underscore (z : Z) : lacks "_" (str_of_int z).
Proof.
  assert (H : forall d, lacks "_" (NilZero.string_of_uint d)).
  { intros d. pose proof (digits_lack_underscore d) as Hd.
    destruct d; try exact Hd. simpl. split; [discriminate | exact I]. }
  unfold str_of_int. destruct (Z.to_int z) as [d | d]; simpl.
  - apply H.
  - split; [discriminate | apply H].
Qed.

(** The f-string rendering of an integer determines it. *)
Lemma str_of_int_inj (z z' : Z) : str_of_int z = str_of_int z' -> z = z'.
Proof.
  assert (Hnn : forall n, Z.to_int n <> Decimal.Pos Decimal.Nil /\
                          Z.to_int n <> Decimal.Neg Decimal.Nil).
  { intros [| p | p]; simpl; split; try discriminate;
      intros [= H]; exact (Unsigned.to_uint_nonnil p H). }
  unfold str_of_int. intros H.
  apply (f_equal NilZero.int_of_string) in H.
  rewrite !NilZero.isi in H by apply Hnn.
  injection H as H. apply to_int_inj. exact H.
Qed.

Section NamesAndStartup.
Context {W : Type} `{E : Env W}.

Lemma container_name_inj (count count' ts ts' : Z) :
  container_name count ts = container_name count' ts' ->
  count = count' /\ ts = ts'.
Proof.
  unfold container_name. intros H.
  apply append_cancel_l in H. simpl in H. injection H as H.
  destruct (cut_unique _ _ _ _ (str_of_int_lacks_underscore _)
              (str_of_int_lacks_underscore _) H) as [Hc Ht].
  apply str_of_int_inj in Hc. apply str_of_int_inj in Ht. lia.
Qed.

(** X11. The name [create_container] composes determines the count of managed
    containers and the timestamp it was composed from: when either differs,
    so do the names.  Two creations can ask for the same name only with the
    same count in the same second. *)
Theorem container_names_differ (count count' ts ts' : Z) :
  count <> count' \/ ts <> ts' ->
  container_name count ts <> container_name count' ts'.
Proof.
  intros Hne Heq. destruct (container_name_inj _ _ _ _ Heq) as [Hc Ht].
  destruct Hne as [H | H]; contradiction.
Qed.

Lemma startup_try_eq w :
  startup_try w =
    if running_in w <? MIN_CONTAINERS then
      match for_range (Z.to_nat (MIN_CONTAINERS - running_in w))
              create_container w with
      | (r, w1, t1) => (r, w1, read_trace ++ t1)
      end
    else (inr tt, w, read_trace).
Proof.
  unfold startup_try, bind. rewrite get_running_count_eq.
  destruct (running_in w <? MIN_CONTAINERS).
  - destruct (for_range _ create_container w) as [[r w1] t1]. reflexivity.
  - unfold ret. rewrite app_nil_r. reflexivity.
Qed.

Lemma startup_eq w :
  startup w =
    match startup_try w with
    | (_, w1, t1) => (inr tt, w1, t1)
    end.
Proof.
  unfold startup, try_except, ret.
  destruct (startup_try w) as [[[e | []] w1] t1]; [rewrite app_nil_r |];
    reflexivity.
Qed.

(** X12. The start-up block never lets an exception out and only ever creates:
    it issues no stop or remove call and at most [MIN - current] run calls.
    With [current >= MIN] it only reads the inventory; when its loop
    completes it has issued exactly [MIN - current] run calls. *)
Theorem startup_only_tops_up (w : W) :
  (exists w' t,
     startup w = (inr tt, w', t) /\
     count_ev is_run t <= Z.max 0 (MIN_CONTAINERS - running_in w) /\
     count_ev is_stop t = 0 /\ count_ev is_remove t = 0) /\
  (MIN_CONTAINERS <= running_in w -> startup w = (inr tt, w, read_trace)) /\
  (forall u w' t,
     startup_try w = (inr u, w', t) ->
     count_ev is_run t = Z.max 0 (MIN_CONTAINERS - running_in w)).
Proof.
  split; [| split].
  - rewrite startup_eq, startup_try_eq.
    destruct (running_in w <? MIN_CONTAINERS) eqn:Hb.
    + apply Z.ltb_lt in Hb.
      destruct (for_range _ create_container w) as [[r w1] t1] eqn:Hloop.
      exists w1, (read_trace ++ t1). split; [reflexivity |].
      pose proof (for_range_count_le is_run 1 create_container ltac:(lia)
        (fun w0 r0 w2 t0 H => proj1 (create_container_any w0 r0 w2 t0 H))
        _ _ _ _ _ Hloop) as Hr.
      pose proof (for_range_count_le is_stop 0 create_container ltac:(lia)
        (fun w0 r0 w2 t0 H =>
           Z.eq_le_incl _ _ (proj1 (proj2 (create_container_any w0 r0 w2 t0 H))))
        _ _ _ _ _ Hloop) as Hs.
      pose proof (for_range_count_le is_remove 0 create_container ltac:(lia)
        (fun w0 r0 w2 t0 H =>
           Z.eq_le_incl _ _ (proj2 (proj2 (create_container_any w0 r0 w2 t0 H))))
        _ _ _ _ _ Hloop) as Hm.
      pose proof (count_ev_nonneg is_stop t1).
      pose proof (count_ev_nonneg is_remove t1).
      rewrite Z2Nat.id in Hr by lia.
      rewrite !count_ev_app, count_read_run, count_read_stop, count_read_remove.
      lia.
    + apply Z.ltb_ge in Hb. exists w, read_trace. split; [reflexivity |].
      rewrite count_read_run, count_read_stop, count_read_remove. lia.
  - intros Hge. rewrite startup_eq, startup_try_eq.
    replace (running_in w <? MIN_CONTAINERS) with false
      by (symmetry; apply Z.ltb_ge; lia).
    reflexivity.
  - intros u w' t Hrun. rewrite startup_try_eq in Hrun.
    destruct (running_in w <? MIN_CONTAINERS) eqn:Hb.
    + apply Z.ltb_lt in Hb.
      destruct (for_range _ create_container w) as [[r w1] t1] eqn:Hloop.
      injection Hrun as -> _ <-.
      destruct (creates_count _ _ _ _ _ Hloop) as (Hr & _).
      rewrite count_ev_app, count_read_run, Hr, Z2Nat.id by lia. lia.
    + apply Z.ltb_ge in Hb. injection Hrun as _ _ <-.
      rewrite count_read_run. lia.
Qed.

(** X13. On a sequential runtime whose listing works, a start-up whose loop
    completes leaves at least [MIN] running managed containers: exactly
    [MIN] if there were fewer, the count it found otherwise. *)
Theorem startup_reaches_minimum (cl : DockerClient W) (w : W) :
  docker_client = Some cl ->
  SequentialDocker cl ->
  listed cl w ->
  forall u w' t,
    startup_try w = (inr u, w', t) ->
    running_in w' = Z.max (running_in w) MIN_CONTAINERS /\
    startup w = (inr tt, w', t).
Proof.
  intros Hcl Laws Hl u w' t Hrun.
  split; [| rewrite startup_eq, Hrun; reflexivity].
  rewrite startup_try_eq in Hrun.
  destruct (running_in w <? MIN_CONTAINERS) eqn:Hb.
  - apply Z.ltb_lt in Hb.
    destruct (for_range _ create_container w) as [[r w1] t1] eqn:Hloop.
    injection Hrun as -> <- _.
    destruct (creates_add cl Hcl Laws _ _ _ _ _ Hl Hloop) as (_ & H1).
    rewrite H1, Z2Nat.id by lia. lia.
  - apply Z.ltb_ge in Hb. injection Hrun as _ <- _. lia.
Qed.

End NamesAndStartup.

(** * The further properties at concrete deployments *)

Lemma scale_set_out_of_range_witness :
  py_int (E := Sim.online) (assoc_get "count" [("count", JInt 5)]%string) = inr 5 /\
  (5 < MIN_CONTAINERS (Env := Sim.online) \/ MAX_CONTAINERS (Env := Sim.online) < 5) /\
  exists resp,
    scale_set (E := Sim.online) (Sim.count_body (JInt 5)) Sim.w_one
      = (inr resp, Sim.w_one, []) /\
    status_code resp = 400.
Proof.
  assert (Hout : 5 < MIN_CONTAINERS (Env := Sim.online)
                 \/ MAX_CONTAINERS (Env := Sim.online) < 5)
    by (right; reflexivity).
  split; [reflexivity |]. split; [exact Hout |].
  destruct (scale_set_out_of_range (E := Sim.online)
              [("count", JInt 5)]%string 5 Sim.w_one eq_refl Hout)
    as (resp & Hrun & Hcode & _).
  exists resp. split; assumption.
Defined.

Lemma scaling_up_offline_witness :
  docker_client (Env := Sim.offline) = None /\
  0 < MAX_CONTAINERS (Env := Sim.offline) /\
  scale_up (E := Sim.offline) Sim.w_one =
    (inr (jsonify_code (error_body RuntimeUnavailable) 500), Sim.w_one, []) /\
  scale_set (E := Sim.offline) (Sim.count_body (JInt 2)) Sim.w_one =
    (inr (jsonify_code (error_body RuntimeUnavailable) 500), Sim.w_one, []).
Proof.
  destruct (scaling_up_offline (E := Sim.offline) Sim.w_one eq_refl)
    as (Hup & Hset).
  split; [reflexivity |]. split; [reflexivity |].
  split; [exact (Hup eq_refl) |].
  exact (Hset [("count", JInt 2)]%string 2 eq_refl ltac:(simpl; lia) eq_refl).
Defined.

Lemma listing_failure_reads_empty_witness :
  docker_client (Env := Sim.unheard) = Some Sim.deaf_client /\
  containers_list Sim.deaf_client Sim.w_full
    = inl (DockerException "listing failed") /\
  get_running_count (E := Sim.unheard) Sim.w_full = (inr 0, Sim.w_full, [EvList]) /\
  exists r w' t,
    scale_up (E := Sim.unheard) Sim.w_full =
      (r, w',
       [EvList; EvList;
        EvRun "nginx:alpine" "scaled_app_1_1700000000" true false
          [("managed_by", "auto_scaler")]%string] ++ t).
Proof.
  destruct (listing_failure_reads_empty (E := Sim.unheard) Sim.deaf_client
              Sim.w_full _ eq_refl eq_refl) as (_ & Hc & _ & Hup).
  split; [reflexivity |]. split; [reflexivity |]. split; [exact Hc |].
  exact (Hup eq_refl).
Defined.

Lemma step_handlers_single_step_witness :
  (exists resp w' t,
     scale_up (E := Sim.online) Sim.w_one = (inr resp, w', t) /\
     status_code resp = 200 /\
     filter is_mutation t =
       [EvRun "nginx:alpine" "scaled_app_2_1700000000" true false
          [("managed_by", "auto_scaler")]%string]) /\
  (exists resp w' t,
     scale_down (E := Sim.online) Sim.w_full = (inr resp, w', t) /\
     status_code resp = 200 /\
     exists c,
       victim (E := Sim.online) Sim.w_full = Some c /\
       filter is_mutation t = [EvStop c 10; EvRemove c]).
Proof.
  split.
  - eexists. eexists. eexists. split; [vm_compute; reflexivity |].
    split; [reflexivity |].
    exact (proj2 (proj1 (step_handlers_single_step (E := Sim.online) Sim.w_one)
                    _ _ _ eq_refl) _ eq_refl eq_refl).
  - eexists. eexists. eexists. split; [vm_compute; reflexivity |].
    split; [reflexivity |].
    exact (proj2 (proj2 (step_handlers_single_step (E := Sim.online) Sim.w_full)
                    _ _ _ eq_refl) _ eq_refl eq_refl).
Defined.

Lemma scale_set_never_overshoots_witness :
  py_int (E := Sim.online) (assoc_get "count" [("count", JInt 3)]%string) = inr 3 /\
  1 <= 3 <= 3 /\
  exists resp w' t,
    scale_set (E := Sim.online) (Sim.count_body (JInt 3)) Sim.w_clash
      = (inr resp, w', t) /\
    status_code resp = 500 /\
    count_ev is_run t <= 2 /\ count_ev is_stop t <= 0.
Proof.
  split; [reflexivity |]. split; [lia |].
  eexists. eexists. eexists. split; [vm_compute; reflexivity |].
  split; [reflexivity |].
  destruct (scale_set_never_overshoots (E := Sim.online)
              [("count", JInt 3)]%string 3 Sim.w_clash eq_refl
              ltac:(simpl; lia) _ _ _ eq_refl) as (Hr & Hs & _).
  split; [exact Hr | exact Hs].
Defined.

Lemma sim_listed (w : Sim.World) : listed Sim.client w.
Proof. exists (Sim.inventory w). reflexivity. Qed.

Lemma scale_set_reaches_target_witness :
  docker_client (Env := Sim.online) = Some Sim.client /\
  SequentialDocker Sim.client /\
  listed Sim.client Sim.w_one /\
  py_int (E := Sim.online) (assoc_get "count" [("count", JInt 3)]%string) = inr 3 /\
  1 <= 3 <= 3 /\
  exists resp w' t,
    scale_set (E := Sim.online) (Sim.count_body (JInt 3)) Sim.w_one
      = (inr resp, w', t) /\
    status_code resp = 200 /\
    running_in (E := Sim.online) w' = 3 /\
    field "current_count" (body resp) = Some (VInt 3).
Proof.
  split; [reflexivity |]. split; [exact sim_client_sequential |].
  split; [apply sim_listed |]. split; [reflexivity |]. split; [lia |].
  eexists. eexists. eexists. split; [vm_compute; reflexivity |].
  split; [reflexivity |].
  destruct (scale_set_reaches_target (E := Sim.online) Sim.client
              [("count", JInt 3)]%string 3 Sim.w_one eq_refl
              sim_client_sequential (sim_listed _) eq_refl ltac:(simpl; lia)
              _ _ _ eq_refl eq_refl) as (Ht & _ & Hc).
  split; [exact Ht | exact Hc].
Defined.

Lemma scale_set_idempotent_witness :
  docker_client (Env := Sim.online) = Some Sim.client /\
  SequentialDocker Sim.client /\
  listed Sim.client Sim.w_full /\
  py_int (E := Sim.online) (assoc_get "count" [("count", JInt 1)]%string) = inr 1 /\
  1 <= 1 <= 3 /\
  exists resp w' t,
    scale_set (E := Sim.online) (Sim.count_body (JInt 1)) Sim.w_full
      = (inr resp, w', t) /\
    status_code resp = 200 /\
    scale_set (E := Sim.online) (Sim.count_body (JInt 1)) w' =
      (inr (jsonify (set_body 1 1 1)), w', [EvList; EvList]).
Proof.
  split; [reflexivity |]. split; [exact sim_client_sequential |].
  split; [apply sim_listed |]. split; [reflexivity |]. split; [lia |].
  eexists. eexists. eexists. split; [vm_compute; reflexivity |].
  split; [reflexivity |].
  exact (scale_set_idempotent (E := Sim.online) Sim.client
           [("count", JInt 1)]%string 1 Sim.w_full eq_refl
           sim_client_sequential (sim_listed _) eq_refl ltac:(simpl; lia)
           _ _ _ eq_refl eq_refl).
Defined.

Lemma bounds_are_kept_witness :
  docker_client (Env := Sim.online) = Some Sim.client /\
  SequentialDocker Sim.client /\
  listed Sim.client Sim.w_one /\
  exists resp w' t,
    scale_up (E := Sim.online) Sim.w_one = (inr resp, w', t) /\
    status_code resp <> 500 /\
    running_in (E := Sim.online) Sim.w_one <= MAX_CONTAINERS (Env := Sim.online) /\
    running_in (E := Sim.online) w' <= MAX_CONTAINERS (Env := Sim.online).
Proof.
  split; [reflexivity |]. split; [exact sim_client_sequential |].
  split; [apply sim_listed |].
  eexists. eexists. eexists. split; [vm_compute; reflexivity |].
  assert (Hcode : 200 <> 500) by discriminate.
  assert (Hle : running_in (E := Sim.online) Sim.w_one
                <= MAX_CONTAINERS (Env := Sim.online))
    by (vm_compute; discriminate).
  split; [exact Hcode |]. split; [exact Hle |].
  destruct (proj1 (bounds_are_kept (E := Sim.online) Sim.client Sim.w_one
                     eq_refl sim_client_sequential (sim_listed _))
              _ _ _ eq_refl Hcode) as (_ & _ & Hmax).
  exact (Hmax Hle).
Defined.

Lemma scale_up_then_down_witness :
  docker_client (Env := Sim.online) = Some Sim.client /\
  SequentialDocker Sim.client /\
  listed Sim.client Sim.w_one /\
  exists r1 w1 t1 r2 w2 t2,
    scale_up (E := Sim.online) Sim.w_one = (inr r1, w1, t1) /\
    status_code r1 = 200 /\
    scale_down (E := Sim.online) w1 = (inr r2, w2, t2) /\
    status_code r2 = 200 /\
    running_in (E := Sim.online) w2 = running_in (E := Sim.online) Sim.w_one.
Proof.
  split; [reflexivity |]. split; [exact sim_client_sequential |].
  split; [apply sim_listed |].
  eexists. eexists. eexists. eexists. eexists. eexists.
  split; [vm_compute; reflexivity |]. split; [reflexivity |].
  split; [vm_compute; reflexivity |]. split; [reflexivity |].
  exact (proj1 (scale_up_then_down (E := Sim.online) Sim.client Sim.w_one
                  eq_refl sim_client_sequential (sim_listed _)
                  _ _ _ _ _ _ eq_refl eq_refl eq_refl eq_refl)).
Defined.

Lemma container_names_differ_witness :
  (1 <> 2 \/ 1700000000 <> 1700000000) /\
  container_name (E := Sim.online) 1 1700000000
    = "scaled_app_2_1700000000"%string /\
  container_name (E := Sim.online) 1 1700000000
    <> container_name (E := Sim.online) 2 1700000000.
Proof.
  assert (Hne : 1 <> 2 \/ 1700000000 <> 1700000000) by (left; discriminate).
  split; [exact Hne |]. split; [reflexivity |].
  exact (container_names_differ (E := Sim.online) 1 2 1700000000 1700000000 Hne).
Defined.

Lemma startup_only_tops_up_witness :
  exists w',
    startup_try (E := Sim.online) Sim.w_empty =
      (inr tt, w',
       [EvList; EvList;
        EvRun "nginx:alpine" "scaled_app_1_1700000000" true false
          [("managed_by", "auto_scaler")]%string]) /\
    count_ev is_run
      [EvList; EvList;
       EvRun "nginx:alpine" "scaled_app_1_1700000000" true false
         [("managed_by", "auto_scaler")]%string] = 1.
Proof.
  eexists. split; [vm_compute; reflexivity |].
  exact (proj2 (proj2 (startup_only_tops_up (E := Sim.online) Sim.w_empty))
           _ _ _ eq_refl).
Defined.

Lemma startup_reaches_minimum_witness :
  docker_client (Env := Sim.online) = Some Sim.client /\
  SequentialDocker Sim.client /\
  listed Sim.client Sim.w_empty /\
  exists u w' t,
    startup_try (E := Sim.online) Sim.w_empty = (inr u, w', t) /\
    running_in (E := Sim.online) w' = 1.
Proof.
  split; [reflexivity |]. split; [exact sim_client_sequential |].
  split; [apply sim_listed |].
  eexists. eexists. eexists. split; [vm_compute; reflexivity |].
  exact (proj1 (startup_reaches_minimum (E := Sim.online) Sim.client Sim.w_empty
                  eq_refl sim_client_sequential (sim_listed _)
                  _ _ _ eq_refl)).
Defined.

(** * The reconciliation theorem at concrete deployments *)

(** C1, amended, scaling from one container to three and from three to
    one. *)
Lemma scale_set_delta_witness :
  (py_int (E := Sim.online) (assoc_get "count" [("count", JInt 3)]%string)
     = inr 3 /\
   1 <= 3 <= 3 /\
   docker_client (Env := Sim.online) = Some Sim.client /\
   runs_succeed (E := Sim.online) Sim.client 2 Sim.w_one /\
   exists w' t,
     scale_set (E := Sim.online) (Sim.count_body (JInt 3)) Sim.w_one =
       (inr (jsonify (set_body 3 1 (running_in (E := Sim.online) w'))), w', t) /\
     count_ev is_run t = 2 /\
     count_ev is_stop t = 0 /\ count_ev is_remove t = 0) /\
  (py_int (E := Sim.online) (assoc_get "count" [("count", JInt 1)]%string)
     = inr 1 /\
   1 <= 1 <= 3 /\
   SequentialDocker Sim.client /\
   removals_succeed (E := Sim.online) Sim.client 2 Sim.w_full /\
   exists w' t,
     scale_set (E := Sim.online) (Sim.count_body (JInt 1)) Sim.w_full =
       (inr (jsonify (set_body 1 3 1)), w', t) /\
     running_in (E := Sim.online) w' = 1 /\
     count_ev is_run t = 0 /\
     count_ev is_stop t = 2 /\ count_ev is_remove t = 2).
Proof.
  split.
  - assert (Hok : runs_succeed (E := Sim.online) Sim.client 2 Sim.w_one).
    { cbn [runs_succeed].
      eexists. eexists. split; [vm_compute; reflexivity |].
      eexists. eexists. split; [vm_compute; reflexivity | exact I]. }
    split; [reflexivity |]. split; [lia |]. split; [reflexivity |].
    split; [exact Hok |].
    exact (proj1 (scale_set_delta (E := Sim.online) [("count", JInt 3)]%string 3
                    Sim.w_one eq_refl ltac:(simpl; lia))
             Sim.client eq_refl eq_refl Hok).
  - assert (Hok : removals_succeed (E := Sim.online) Sim.client 2 Sim.w_full).
    { cbn [removals_succeed].
      intros c Hv. vm_compute in Hv. injection Hv as <-.
      eexists. eexists. split; [vm_compute; reflexivity |].
      split; [vm_compute; reflexivity |].
      intros c Hv. vm_compute in Hv. injection Hv as <-.
      eexists. eexists. split; [vm_compute; reflexivity |].
      split; [vm_compute; reflexivity | exact I]. }
    split; [reflexivity |]. split; [lia |].
    split; [exact sim_client_sequential |]. split; [exact Hok |].
    exact (proj1 (proj2 (scale_set_delta (E := Sim.online)
                           [("count", JInt 1)]%string 1 Sim.w_full eq_refl
                           ltac:(simpl; lia)))
             Sim.client eq_refl sim_client_sequential eq_refl
             ltac:(lia) Hok).
Defined.

(** C1 as stated fails in three ways, each with every runtime call
    succeeding.  With a negative minimum and target, the second of three
    removals finds nothing running and raises; without a client handle no
    creation reaches the runtime; on a daemon whose stop call stops more
    than it was asked to, the second of two removals finds nothing
    running.  Each time the answer is 500 and fewer operations than
    [|delta|] were performed. *)
Lemma scale_set_delta_counterexample :
  (py_int (E := Sim.below_zero) (assoc_get "count" [("count", JInt (-2))]%string)
     = inr (-2) /\
   MIN_CONTAINERS (Env := Sim.below_zero) <= -2
     <= MAX_CONTAINERS (Env := Sim.below_zero) /\
   -2 - running_in (E := Sim.below_zero) Sim.w_one = -3 /\
   removals_succeed (E := Sim.below_zero) Sim.client 3 Sim.w_one /\
   exists w' t,
     scale_set (E := Sim.below_zero) (Sim.count_body (JInt (-2))) Sim.w_one =
       (inr (jsonify_code (error_body NoRunningContainers) 500), w', t) /\
     count_ev is_stop t = 1 /\ count_ev is_remove t = 1) /\
  (2 - running_in (E := Sim.offline) Sim.w_one = 2 /\
   scale_set (E := Sim.offline) (Sim.count_body (JInt 2)) Sim.w_one =
     (inr (jsonify_code (error_body RuntimeUnavailable) 500), Sim.w_one, [])) /\
  (1 - running_in (E := Sim.eager) Sim.w_full = -2 /\
   removals_succeed (E := Sim.eager) Sim.eager_client 2 Sim.w_full /\
   exists w' t,
     scale_set (E := Sim.eager) (Sim.count_body (JInt 1)) Sim.w_full =
       (inr (jsonify_code (error_body NoRunningContainers) 500), w', t) /\
     count_ev is_stop t = 1 /\ count_ev is_remove t = 1).
Proof.
  split; [| split].
  - split; [reflexivity |]. split; [simpl; lia |]. split; [reflexivity |].
    split.
    + cbn [removals_succeed].
      intros c Hv. vm_compute in Hv. injection Hv as <-.
      eexists. eexists. split; [vm_compute; reflexivity |].
      split; [vm_compute; reflexivity |].
      intros c Hv. vm_compute in Hv. discriminate Hv.
    + eexists. eexists. split; [vm_compute; reflexivity |].
      split; reflexivity.
  - split; reflexivity.
  - split; [reflexivity |]. split.
    + cbn [removals_succeed].
      intros c Hv. vm_compute in Hv. injection Hv as <-.
      eexists. eexists. split; [vm_compute; reflexivity |].
      split; [vm_compute; reflexivity |].
      intros c Hv. vm_compute in Hv. discriminate Hv.
    + eexists. eexists. split; [vm_compute; reflexivity |].
      split; reflexivity.
Qed.
